(** * Listener notification: [robot.output.old_listener]

    A shallow embedding of [LibraryListeners] (the event router) and
    [ListenerProxy] (the listener binding) of
    [src/robot/output/old_listener.py], with the collaborators they import
    ([LibraryListenerMethods], [AbstractLoggerProxy], [IsLogged],
    [ModelCombiner]) modelled from the design document, and the properties
    the design document states about them. *)

From Stdlib Require Import ZArith List String Bool Lia.
Import ListNotations.
Open Scope string_scope.
Open Scope list_scope.
Open Scope Z_scope.

(** ** Python values *)

(** The values an attribute of a listener or of a model object can hold.
    A finite float is the exact dyadic rational [num / 2 ^ scale]; every
    other object is known by its identity, and what its number protocol
    does, if it has one, is given with the environment. *)
Inductive value : Type :=
| PyNone
| PyInt (z : Z)
| PyFloat (num : Z) (scale : N)
| PyInf (negative : bool)
| PyStr (s : string)
| PyRef (id : nat).

(** [a == b] on these values: numbers compare by numeric value across
    [int] and [float], text by content, other objects by identity. *)
Definition py_eq (a b : value) : bool :=
  match a, b with
  | PyNone, PyNone => true
  | PyInt x, PyInt y => x =? y
  | PyInt x, PyFloat n k => n =? x * 2 ^ Z.of_N k
  | PyFloat n k, PyInt y => n =? y * 2 ^ Z.of_N k
  | PyFloat n k, PyFloat n' k' => n * 2 ^ Z.of_N k' =? n' * 2 ^ Z.of_N k
  | PyInf s, PyInf s' => Bool.eqb s s'
  | PyStr s, PyStr s' => String.eqb s s'
  | PyRef i, PyRef j => Nat.eqb i j
  | _, _ => false
  end.

(** [x in (a, b, ...)]. *)
Definition py_in (x : value) (items : list value) : bool :=
  existsb (py_eq x) items.

(** ** Messages and exceptions *)

(** A formatted message is kept as the sequence of pieces that the [%]
    operator joins: literal or interpolated text, and values interpolated
    with [%s]. *)
Inductive piece : Type :=
| Txt (s : string)
| Fmt (v : value).

Definition message_text := list piece.

Inductive exn : Type :=
| DataError (msg : message_text)
| AttributeError (attribute : string)
| KeyError (key : string)
| ValueError
| TypeError
| OverflowError
| IndexError.

Inductive result (A : Type) : Type :=
| Ok (a : A)
| Raise (e : exn).
Arguments Ok {A} a.
Arguments Raise {A} e.

(** ** Model objects, combined views and payloads *)

(** An object of the running or of the result model: its attributes. *)
Definition object := list (string * value).

Fixpoint lookup {A : Type} (k : string) (d : list (string * A)) : option A :=
  match d with
  | [] => None
  | (k', a) :: rest => if String.eqb k k' then Some a else lookup k rest
  end.

(** [obj.name]: the attribute, or [AttributeError]. *)
Definition getattr (obj : object) (name : string) : result value :=
  match lookup name obj with
  | Some v => Ok v
  | None => Raise (AttributeError name)
  end.

(** Modelled from the spec: the View Composer ([ModelCombiner] of the
    [modelcombiner] module, imported by the listener module).  It keeps the
    static object, the live object and the named overrides given at
    construction. *)
Record ModelCombiner : Type := mkModelCombiner {
  data : object;
  result_ : object;
  priority : list (string * value)
}.

(** Modelled from the spec: attribute lookup on a combined view.  Named
    overrides bypass the order entirely; otherwise the live result object
    is tried first, then the static object. *)
Definition ModelCombiner_getattr (view : ModelCombiner) (name : string)
  : result value :=
  match lookup name (priority view) with
  | Some v => Ok v
  | None =>
      match lookup name (result_ view) with
      | Some v => Ok v
      | None => getattr (data view) name
      end
  end.

(** [model.Message], as far as the router reads it. *)
Record Message : Type := mkMessage {
  level : string;
  message : string
}.

(** What a dispatcher is called with: a combined view or a message. *)
Inductive payload : Type :=
| View (view : ModelCombiner)
| Msg (msg : Message).

(** ** Listeners *)

(** What calling a listener method does: it returns, or raises an error
    with the given error message. *)
Inductive outcome : Type :=
| Returned
| Raised (error : string).

Definition hook := list payload -> outcome.

(** A live listener object (class instance or module): its [__name__] if
    it has one, the name of its type, its version marker if it has one, and
    the method it exposes for each hook name. *)
Record Listener : Type := mkListener {
  dunder_name : option string;
  type_name : string;
  ROBOT_LISTENER_API_VERSION : option value;
  exposed : string -> option hook
}.

(** A listener reference: text naming a class or module, or a live object
    ([is_string] tells them apart). *)
Inductive reference : Type :=
| Text (s : string)
| Live (listener : Listener).

(** ** External collaborators *)

(** What the module consumes from outside the listener package: the
    built-in [int] on text and on any other object (the result of its
    [__int__], or whatever exception that or its absence raises), the
    helpers of [robot.utils] that split a textual reference and import what
    it names, [os.path.normpath], and the severity ranking of log levels. *)
Record Env : Type := mkEnv {
  int_of_str : string -> option Z;
  int_of_object : nat -> result Z;
  split_args_from_name_or_path : string -> string * list string;
  normpath : string -> string;
  import_class_or_module : string -> list string -> result Listener;
  rank : string -> Z
}.

(** ** Bindings, dispatchers, routers and the world they run in *)

(** Item assignment on an insertion-ordered dictionary (also the attribute
    table of an instance): an existing key keeps its place. *)
Fixpoint set_item {A : Type} (k : string) (a : A) (d : list (string * A))
  : list (string * A) :=
  match d with
  | [] => [(k, a)]
  | (k', a') :: rest =>
      if String.eqb k k' then (k, a) :: rest
      else (k', a') :: set_item k a rest
  end.

(** Taking a key out of a dictionary. *)
Definition del_item {A : Type} (k : string) (d : list (string * A))
  : list (string * A) :=
  filter (fun item => negb (String.eqb k (fst item))) d.

(** A [ListenerProxy] instance: the wrapped listener, the hook attributes
    set on the instance (each a callable or the marker [None]), the display
    name and the API version.  [name] and [version] are attributes of the
    same instance: assigning them replaces a hook set under that name. *)
Record ListenerProxy : Type := mkListenerProxy {
  logger : Listener;
  hooks : list (string * option hook);
  name : string;
  version : Z
}.

(** The identity of the library that owns a binding. *)
Definition library := nat.

(** Modelled from the spec: the Method Dispatcher ([LibraryListenerMethods]
    of the [listenermethods] module).  Its state is the active binding set,
    each binding keyed by its owning library and kept in registration
    order, and the stack of scope checkpoints. *)
Record LibraryListenerMethods : Type := mkLibraryListenerMethods {
  _method_name : string;
  active : list (library * ListenerProxy);
  checkpoints : list (list (library * ListenerProxy))
}.

(** Modelled from the spec: the Level Filter ([IsLogged] of the
    [loggerhelper] module) holds the current severity threshold. *)
Record IsLogged : Type := mkIsLogged {
  threshold : string
}.

(** A [LibraryListeners] instance.  The only attribute an instance owns is
    its level filter: [_methods] is an attribute of the class. *)
Record LibraryListeners : Type := mkLibraryListeners {
  _is_logged : IsLogged
}.

(** What can be observed of a run: a listener method entered through a
    binding, and an error reported through [LOGGER.error]. *)
Inductive event : Type :=
| Invoked (binding : ListenerProxy) (method : string) (args : list payload)
| LoggedError (msg : message_text).

(** The state shared by everything in the process: the dictionary
    [LibraryListeners._methods], declared at class scope, and what has
    been observed so far. *)
Record World : Type := mkWorld {
  _methods : list (string * LibraryListenerMethods);
  trace : list event
}.

(** Computations that read and update the world and may raise.  What was
    done before an exception is raised stays done. *)
Definition M (A : Type) : Type := World -> result A * World.

Definition ret {A : Type} (a : A) : M A := fun w => (Ok a, w).

Definition raise {A : Type} (e : exn) : M A := fun w => (Raise e, w).

Definition bind {A B : Type} (c : M A) (k : A -> M B) : M B :=
  fun w =>
    match c w with
    | (Ok a, w') => k a w'
    | (Raise e, w') => (Raise e, w')
    end.

Definition lift {A : Type} (r : result A) : M A := fun w => (r, w).

Notation "x <- c ;; k" := (bind c (fun x => k))
  (at level 61, c at next level, right associativity).
Notation "c ;;; k" := (bind c (fun _ => k))
  (at level 61, right associativity).

Definition emit (e : event) : M unit :=
  fun w => (Ok tt, mkWorld (_methods w) (trace w ++ [e])).

(** [LOGGER.error(msg)]. *)
Definition LOGGER_error (msg : message_text) : M unit :=
  emit (LoggedError msg).

(** [for x in xs: body(x)]. *)
Fixpoint for_each {A : Type} (xs : list A) (body : A -> M unit) : M unit :=
  match xs with
  | [] => ret tt
  | x :: rest => body x ;;; for_each rest body
  end.

(** The built-in [int(v)]. *)
Definition int (env : Env) (v : value) : result Z :=
  match v with
  | PyNone => Raise TypeError
  | PyInt z => Ok z
  | PyFloat n k => Ok (Z.quot n (2 ^ Z.of_N k))
  | PyInf _ => Raise OverflowError
  | PyStr s =>
      match int_of_str env s with
      | Some z => Ok z
      | None => Raise ValueError
      end
  | PyRef id => int_of_object env id
  end.

(** ** [AbstractLoggerProxy] *)

Module AbstractLoggerProxy.

(** Modelled from the spec: the hook of a binding for a method name is
    the method the listener exposes under that name, or the marker for an
    absent hook.  ([AbstractLoggerProxy] is defined in the [loggerhelper]
    module; the spelling variants a prefix allows are part of what the
    listener exposes.) *)
Definition _get_method (_no_method : option hook) (logger : Listener)
    (name : string) (prefix : option string) : option hook :=
  match exposed logger name with
  | Some method => Some method
  | None => _no_method
  end.

(** Modelled from the spec: construction fills the per-event
    callable-or-absent table, one attribute for each method name. *)
Definition __init__ (_no_method : option hook) (logger : Listener)
    (method_names : list string) (prefix : option string)
  : list (string * option hook) :=
  fold_left
    (fun attrs name =>
       set_item name (_get_method _no_method logger name prefix) attrs)
    method_names [].

End AbstractLoggerProxy.

(** ** [ListenerProxy] *)

Module ListenerProxy.

Definition _no_method : option hook := None.

Section WithEnv.
Variable env : Env.

Definition _import_listener (listener : reference)
  : result (Listener * string) :=
  match listener with
  | Live l =>
      let name :=
        match dunder_name l with
        | Some n => if String.eqb n "" then type_name l else n
        | None => type_name l
        end in
      Ok (l, name)
  | Text s =>
      let '(name, args) := split_args_from_name_or_path env s in
      match import_class_or_module env (normpath env name) args with
      | Ok l => Ok (l, name)
      | Raise e => Raise e
      end
  end.

Definition _get_version (self_name : string) (listener : Listener)
  : result Z :=
  let attempt :=
    match ROBOT_LISTENER_API_VERSION listener with
    | None => Raise (AttributeError "ROBOT_LISTENER_API_VERSION")
    | Some marker =>
        match int env marker with
        | Ok version =>
            if py_in (PyInt version) [PyInt 2; PyInt 3] then Ok version
            else Raise ValueError
        | Raise e => Raise e
        end
    end in
  match attempt with
  | Ok version => Ok version
  | Raise (AttributeError _) =>
      Raise (DataError [Txt "Listener '"; Txt self_name;
                        Txt "' does not have mandatory ";
                        Txt "'ROBOT_LISTENER_API_VERSION' attribute."])
  | Raise ValueError | Raise TypeError =>
      match ROBOT_LISTENER_API_VERSION listener with
      | Some marker =>
          Raise (DataError [Txt "Listener '"; Txt self_name;
                            Txt "' uses unsupported API version '";
                            Fmt marker; Txt "'."])
      | None => Raise (AttributeError "ROBOT_LISTENER_API_VERSION")
      end
  | Raise e => Raise e
  end.

Definition __init__ (listener : reference) (method_names : list string)
    (prefix : option string) : result ListenerProxy :=
  match _import_listener listener with
  | Raise e => Raise e
  | Ok (l, name) =>
      let attrs :=
        AbstractLoggerProxy.__init__ _no_method l method_names prefix in
      (* self.name = name *)
      let attrs := del_item "name" attrs in
      match _get_version name l with
      | Raise e => Raise e
      | Ok version =>
          (* self.version = ... *)
          let attrs := del_item "version" attrs in
          let attrs :=
            if version =? 3 then
              set_item "variables_import" None
                (set_item "resource_import" None
                   (set_item "library_import" None
                      (set_item "end_keyword" None
                         (set_item "start_keyword" None attrs))))
            else attrs in
          Ok (mkListenerProxy l attrs name version)
      end
  end.

(** [listener if is_string(listener) else type_name(listener)]. *)
Definition reference_name (listener : reference) : string :=
  match listener with
  | Text s => s
  | Live l => type_name l
  end.

Fixpoint import_listeners_from (imported : list ListenerProxy)
    (listeners : list reference) (method_names : list string)
    (prefix : option string) (raise_on_error : bool)
  : M (list ListenerProxy) :=
  match listeners with
  | [] => ret imported
  | listener :: rest =>
      match __init__ listener method_names prefix with
      | Ok proxy =>
          import_listeners_from (imported ++ [proxy]) rest method_names
            prefix raise_on_error
      | Raise (DataError err) =>
          let name := reference_name listener in
          let msg :=
            [Txt "Taking listener '"; Txt name;
             Txt "' into use failed: "] ++ err in
          if raise_on_error then raise (DataError msg)
          else
            LOGGER_error msg ;;;
            import_listeners_from imported rest method_names prefix
              raise_on_error
      | Raise e => raise e
      end
  end.

Definition import_listeners (listeners : list reference)
    (method_names : list string) (prefix : option string)
    (raise_on_error : bool) : M (list ListenerProxy) :=
  import_listeners_from [] listeners method_names prefix raise_on_error.

End WithEnv.

End ListenerProxy.

(** ** [IsLogged] *)

Module IsLogged.

(** Modelled from the spec: the filter starts from a configured
    threshold. *)
Definition __init__ (level : string) : IsLogged := mkIsLogged level.

(** Modelled from the spec: a level is forwardable iff its severity rank
    is at or above the rank of the threshold. *)
Definition __call__ (env : Env) (self : IsLogged) (level : string) : bool :=
  rank env (threshold self) <=? rank env level.

(** Modelled from the spec: [set_level] replaces the threshold for all
    later decisions. *)
Definition set_level (self : IsLogged) (level : string) : IsLogged :=
  mkIsLogged level.

End IsLogged.

(** ** [LibraryListenerMethods] *)

Module LibraryListenerMethods.

(** Modelled from the spec: a dispatcher for one event kind starts with
    no active binding and no checkpoint. *)
Definition __init__ (method_name : string) : LibraryListenerMethods :=
  mkLibraryListenerMethods method_name [] [].

(** Modelled from the spec: [register] appends the bindings, already
    resolved by the router, to the active set under the library key. *)
Definition register (self : LibraryListenerMethods)
    (listeners : list ListenerProxy) (lib : library)
  : LibraryListenerMethods :=
  mkLibraryListenerMethods (_method_name self)
    (active self ++ map (fun proxy => (lib, proxy)) listeners)
    (checkpoints self).

Definition owned_by (lib : library) (entry : library * ListenerProxy)
  : bool :=
  Nat.eqb (fst entry) lib.

(** Modelled from the spec: [unregister] removes all bindings owned by
    the library from the active set.  (The router performs the close
    notification itself and calls this method with the library alone.) *)
Definition unregister (self : LibraryListenerMethods) (lib : library)
  : LibraryListenerMethods :=
  mkLibraryListenerMethods (_method_name self)
    (filter (fun entry => negb (owned_by lib entry)) (active self))
    (checkpoints self).

(** Modelled from the spec: [new_suite_scope] pushes a checkpoint that
    records the current contents of the active set. *)
Definition new_suite_scope (self : LibraryListenerMethods)
  : LibraryListenerMethods :=
  mkLibraryListenerMethods (_method_name self) (active self)
    (active self :: checkpoints self).

(** Modelled from the spec: [discard_suite_scope] pops the most recent
    checkpoint and restores the set it recorded; a pop without a matching
    push is a contract violation. *)
Definition discard_suite_scope (self : LibraryListenerMethods)
  : result LibraryListenerMethods :=
  match checkpoints self with
  | [] => Raise IndexError
  | saved :: older =>
      Ok (mkLibraryListenerMethods (_method_name self) saved older)
  end.

(** Modelled from the spec: one binding is notified if its hook for this
    event kind is present; an error raised by the hook is caught and
    logged with the display name of the listener and the error
    message. *)
Definition notify (method_name : string) (args : list payload)
    (entry : library * ListenerProxy) : M unit :=
  let proxy := snd entry in
  match lookup method_name (hooks proxy) with
  | Some (Some method) =>
      emit (Invoked proxy method_name args) ;;;
      match method args with
      | Returned => ret tt
      | Raised error => LOGGER_error [Txt (name proxy); Txt error]
      end
  | _ => ret tt
  end.

(** The bindings a call reaches: all active ones, or those owned by the
    library the call names. *)
Definition targets (self : LibraryListenerMethods) (lib : option library)
  : list (library * ListenerProxy) :=
  match lib with
  | Some l => filter (owned_by l) (active self)
  | None => active self
  end.

(** Modelled from the spec: calling the dispatcher notifies every
    currently active binding, in registration order. *)
Definition __call__ (self : LibraryListenerMethods) (args : list payload)
    (lib : option library) : M unit :=
  for_each (targets self lib) (notify (_method_name self) args).

(** Modelled from the spec: a dispatcher declares no truth value of its
    own, so as an object it is true. *)
Definition __bool__ (self : LibraryListenerMethods) : bool := true.

End LibraryListenerMethods.

(** ** [LibraryListeners] *)

Module LibraryListeners.

Definition _method_names : list string :=
  ["start_suite"; "end_suite"; "start_test"; "end_test";
   "start_keyword"; "end_keyword"; "log_message"; "message"; "close"].

(** [self._methods[name]]: the class dictionary, read through the
    instance. *)
Definition methods_getitem (name : string) : M LibraryListenerMethods :=
  fun w =>
    match lookup name (_methods w) with
    | Some method => (Ok method, w)
    | None => (Raise (KeyError name), w)
    end.

(** [self._methods[name] = method]: the instance has no [_methods] of its
    own, so the class dictionary is updated in place. *)
Definition methods_setitem (name : string) (method : LibraryListenerMethods)
  : M unit :=
  fun w => (Ok tt, mkWorld (set_item name method (_methods w)) (trace w)).

(** [for method in self._listener_methods(): ...] where the body updates
    the dispatcher in place or raises.  Every value of the dictionary is
    a [LibraryListenerMethods], so [_listener_methods] keeps them all, in
    the order of the dictionary. *)
Fixpoint update_methods
    (body : LibraryListenerMethods -> result LibraryListenerMethods)
    (items : list (string * LibraryListenerMethods))
  : result unit * list (string * LibraryListenerMethods) :=
  match items with
  | [] => (Ok tt, [])
  | (key, method) :: rest =>
      match body method with
      | Ok method' =>
          let '(r, rest') := update_methods body rest in
          (r, (key, method') :: rest')
      | Raise e => (Raise e, (key, method) :: rest)
      end
  end.

Definition for_each_listener_method
    (body : LibraryListenerMethods -> result LibraryListenerMethods)
  : M unit :=
  fun w =>
    let '(r, items) := update_methods body (_methods w) in
    (r, mkWorld items (trace w)).

Section WithEnv.
Variable env : Env.

Definition __init__ (log_level : string) : M LibraryListeners :=
  let self := mkLibraryListeners (IsLogged.__init__ log_level) in
  for_each _method_names
    (fun name =>
       methods_setitem name (LibraryListenerMethods.__init__ name)) ;;;
  ret self.

Definition start_suite (self : LibraryListeners) (data result : object)
  : M unit :=
  method <- methods_getitem "start_suite" ;;
  tests <- lift (getattr data "tests") ;;
  suites <- lift (getattr data "suites") ;;
  test_count <- lift (getattr data "test_count") ;;
  LibraryListenerMethods.__call__ method
    [View (mkModelCombiner data result
             [("tests", tests); ("suites", suites);
              ("test_count", test_count)])] None.

Definition end_suite (self : LibraryListeners) (data result : object)
  : M unit :=
  method <- methods_getitem "end_suite" ;;
  LibraryListenerMethods.__call__ method
    [View (mkModelCombiner data result [])] None.

Definition start_test (self : LibraryListeners) (data result : object)
  : M unit :=
  method <- methods_getitem "start_test" ;;
  LibraryListenerMethods.__call__ method
    [View (mkModelCombiner data result [])] None.

Definition end_test (self : LibraryListeners) (data result : object)
  : M unit :=
  method <- methods_getitem "end_test" ;;
  LibraryListenerMethods.__call__ method
    [View (mkModelCombiner data result [])] None.

(** [data.type not in (data.IF_ELSE_ROOT, data.TRY_EXCEPT_ROOT)]. *)
Definition not_a_root (data : object) : M bool :=
  type <- lift (getattr data "type") ;;
  if_else_root <- lift (getattr data "IF_ELSE_ROOT") ;;
  try_except_root <- lift (getattr data "TRY_EXCEPT_ROOT") ;;
  ret (negb (py_in type [if_else_root; try_except_root])).

Definition start_body_item (self : LibraryListeners)
    (data result : object) : M unit :=
  reported <- not_a_root data ;;
  if reported : bool then
    method <- methods_getitem "start_keyword" ;;
    LibraryListenerMethods.__call__ method
      [View (mkModelCombiner data result [])] None
  else ret tt.

Definition end_body_item (self : LibraryListeners)
    (data result : object) : M unit :=
  reported <- not_a_root data ;;
  if reported : bool then
    method <- methods_getitem "end_keyword" ;;
    LibraryListenerMethods.__call__ method
      [View (mkModelCombiner data result [])] None
  else ret tt.

Definition register (self : LibraryListeners)
    (listeners : list reference) (lib : library) : M unit :=
  listeners <- ListenerProxy.import_listeners env listeners
                 _method_names (Some "_") true ;;
  for_each_listener_method
    (fun method =>
       Ok (LibraryListenerMethods.register method listeners lib)).

(** [close and self._methods.get('close')]. *)
Definition close_requested (close : bool) : M bool :=
  fun w =>
    if close then
      match lookup "close" (_methods w) with
      | Some method => (Ok (LibraryListenerMethods.__bool__ method), w)
      | None => (Ok false, w)
      end
    else (Ok false, w).

Definition unregister (self : LibraryListeners) (lib : library)
    (close : bool) : M unit :=
  closing <- close_requested close ;;
  (if closing : bool then
     method <- methods_getitem "close" ;;
     LibraryListenerMethods.__call__ method [] (Some lib)
   else ret tt) ;;;
  for_each_listener_method
    (fun method => Ok (LibraryListenerMethods.unregister method lib)).

Definition new_suite_scope (self : LibraryListeners) : M unit :=
  for_each_listener_method
    (fun method => Ok (LibraryListenerMethods.new_suite_scope method)).

Definition discard_suite_scope (self : LibraryListeners) : M unit :=
  for_each_listener_method LibraryListenerMethods.discard_suite_scope.

Definition set_log_level (self : LibraryListeners) (level : string)
  : LibraryListeners :=
  mkLibraryListeners (IsLogged.set_level (_is_logged self) level).

Definition log_message (self : LibraryListeners) (msg : Message)
  : M unit :=
  if IsLogged.__call__ env (_is_logged self) (level msg) then
    method <- methods_getitem "log_message" ;;
    LibraryListenerMethods.__call__ method [Msg msg] None
  else ret tt.

Definition message (self : LibraryListeners) (msg : Message) : M unit :=
  method <- methods_getitem "message" ;;
  LibraryListenerMethods.__call__ method [Msg msg] None.

End WithEnv.

End LibraryListeners.

(** ** Reading a trace *)

(** The listener methods entered, in order: binding, method name and
    arguments of each [Invoked] event. *)
Fixpoint invocations (events : list event)
  : list (ListenerProxy * string * list payload) :=
  match events with
  | [] => []
  | Invoked proxy method args :: rest =>
      (proxy, method, args) :: invocations rest
  | LoggedError _ :: rest => invocations rest
  end.

(** The errors reported through [LOGGER.error], in order. *)
Fixpoint logged_errors (events : list event) : list message_text :=
  match events with
  | [] => []
  | Invoked _ _ _ :: rest => logged_errors rest
  | LoggedError msg :: rest => msg :: logged_errors rest
  end.

(** The hook of a binding for a method name is present (callable). *)
Definition has_hook (method_name : string)
    (entry : library * ListenerProxy) : bool :=
  match lookup method_name (hooks (snd entry)) with
  | Some (Some _) => true
  | _ => false
  end.

(** The bindings of a list that a notification for [method_name] enters,
    as they appear among the invocations of a trace. *)
Definition notified (method_name : string) (args : list payload)
    (entries : list (library * ListenerProxy))
  : list (ListenerProxy * string * list payload) :=
  map (fun entry => (snd entry, method_name, args))
      (filter (has_hook method_name) entries).

(** The events one binding adds to the trace when it is notified. *)
Definition notification (method_name : string) (args : list payload)
    (entry : library * ListenerProxy) : list event :=
  match lookup method_name (hooks (snd entry)) with
  | Some (Some method) =>
      Invoked (snd entry) method_name args ::
      match method args with
      | Returned => []
      | Raised error => [LoggedError [Txt (name (snd entry)); Txt error]]
      end
  | _ => []
  end.

Definition notifications (method_name : string) (args : list payload)
    (entries : list (library * ListenerProxy)) : list event :=
  flat_map (notification method_name args) entries.

(** The same update made to every dispatcher of the dictionary. *)
Definition update_all (f : LibraryListenerMethods -> LibraryListenerMethods)
    (items : list (string * LibraryListenerMethods))
  : list (string * LibraryListenerMethods) :=
  map (fun item => (fst item, f (snd item))) items.

(** The reference resolves to the binding: constructing a
    [ListenerProxy] from it succeeds. *)
Definition resolves (env : Env) (method_names : list string)
    (prefix : option string) (listener : reference) (proxy : ListenerProxy)
  : Prop :=
  ListenerProxy.__init__ env listener method_names prefix = Ok proxy.

(** The marker is one of 2 and 3 as a value: [marker in (2, 3)]. *)
Definition marker_is_2_or_3 (marker : value) : bool :=
  py_in marker [PyInt 2; PyInt 3].

(** ** Sample listeners and environment *)

Module Sample.

Definition digit (c : Ascii.ascii) : option Z :=
  let n := Z.of_nat (Ascii.nat_of_ascii c) in
  if (48 <=? n) && (n <=? 57) then Some (n - 48) else None.

Fixpoint digits (acc : Z) (s : string) : option Z :=
  match s with
  | EmptyString => Some acc
  | String c rest =>
      match digit c with
      | Some d => digits (10 * acc + d) rest
      | None => None
      end
  end.

(** [int] on text, for texts made of decimal digits only. *)
Definition int_of_str (s : string) : option Z :=
  match s with
  | EmptyString => None
  | _ => digits 0 s
  end.

(** [int] on the other objects of the samples: none of them has a number
    protocol. *)
Definition int_of_object (id : nat) : result Z := Raise TypeError.

Definition quiet : hook := fun _ => Returned.
Definition failing : hook := fun _ => Raised "boom".

Definition all_hooks (h : hook) : string -> option hook :=
  fun _ => Some h.

Definition listener_v2 : Listener :=
  mkListener None "ListenerV2" (Some (PyInt 2)) (all_hooks quiet).
Definition listener_v3 : Listener :=
  mkListener None "ListenerV3" (Some (PyStr "3")) (all_hooks quiet).
Definition listener_failing : Listener :=
  mkListener (Some "failing_module") "module" (Some (PyInt 2))
    (all_hooks failing).
Definition listener_unmarked : Listener :=
  mkListener None "Unmarked" None (all_hooks quiet).
Definition listener_v1 : Listener :=
  mkListener None "ListenerV1" (Some (PyInt 1)) (all_hooks quiet).
(** [ROBOT_LISTENER_API_VERSION = 2.5]. *)
Definition listener_v2_5 : Listener :=
  mkListener None "ListenerV2_5" (Some (PyFloat 5 1)) (all_hooks quiet).

Definition import_class_or_module (name : string) (args : list string)
  : result Listener :=
  if String.eqb name "listeners.V2" then Ok listener_v2
  else if String.eqb name "listeners.V3" then Ok listener_v3
  else Raise (DataError [Txt "Importing listener '"; Txt name;
                         Txt "' failed: ModuleNotFoundError"]).

Definition rank (level : string) : Z :=
  if String.eqb level "TRACE" then 0
  else if String.eqb level "DEBUG" then 1
  else if String.eqb level "INFO" then 2
  else if String.eqb level "WARN" then 3
  else if String.eqb level "ERROR" then 4
  else 5.

Definition env : Env :=
  mkEnv int_of_str int_of_object (fun s => (s, [])) (fun s => s)
    import_class_or_module rank.

Definition empty_world : World := mkWorld [] [].

Definition proxy_of (l : Listener) (nm : string) (v : Z) : ListenerProxy :=
  mkListenerProxy l
    (AbstractLoggerProxy.__init__ None l
       LibraryListeners._method_names (Some "_"))
    nm v.

Definition suite : object :=
  [("name", PyStr "Suite"); ("tests", PyRef 1); ("suites", PyRef 2);
   ("test_count", PyInt 5)].
Definition suite_result : object :=
  [("name", PyStr "Suite"); ("tests", PyRef 7); ("suites", PyRef 8);
   ("test_count", PyInt 0); ("status", PyStr "FAIL")].

Definition body_item (type : string) : object :=
  [("type", PyStr type); ("IF_ELSE_ROOT", PyStr "IF/ELSE ROOT");
   ("TRY_EXCEPT_ROOT", PyStr "TRY/EXCEPT ROOT"); ("name", PyStr "Log")].

Definition warning : Message := mkMessage "WARN" "careful".

End Sample.

(** ** [robot.libdocpkg.builder] *)

Module Builder.

(** The documentation builders the module chooses between.  Under Jython
    [JavaDocBuilder] is a class of [javabuilder] or [java9builder]. *)
Inductive builder : Type :=
| LibraryDocBuilder
| ResourceDocBuilder
| SpecDocBuilder
| JsonDocBuilder
| JythonJavaDocBuilder.

(** [isinstance(builder, LibraryDocBuilder)]: the builders are classes of
    their own, none of them a subclass of another. *)
Definition is_LibraryDocBuilder (b : builder) : bool :=
  match b with
  | LibraryDocBuilder => true
  | _ => false
  end.

(** The library documentation a builder returns, as far as the module
    touches it: the three attributes it may assign, and the rest. *)
Record LibraryDoc : Type := mkLibraryDoc {
  name : string;
  version : string;
  doc_format : string;
  content : object
}.

(** What the module consumes from outside: [os.path.exists],
    [os.path.splitext], [str.lower], the [JYTHON] flag and
    [get_error_message] of [robot.utils] (a function of the exception being
    handled), and what [build] of each builder does with a source. *)
Record Os : Type := mkOs {
  path_exists : string -> bool;
  splitext : string -> string * string;
  lower : string -> string;
  JYTHON : bool;
  get_error_message : exn -> string;
  build : builder -> string -> result LibraryDoc
}.

Definition RESOURCE_EXTENSIONS : list string :=
  ["resource"; "robot"; "txt"; "tsv"; "rst"; "rest"].

Definition SPEC_EXTENSIONS : list string := ["xml"; "libspec"].

(** [x in (a, b, ...)] on text. *)
Definition str_in (x : string) (items : list string) : bool :=
  existsb (String.eqb x) items.

(** [s[1:]]. *)
Definition from_1 (s : string) : string :=
  match s with
  | EmptyString => EmptyString
  | String _ rest => rest
  end.

(** An optional text argument when it is truthy: given and not empty. *)
Definition if_truthy (arg : option string) : option string :=
  match arg with
  | Some s => if String.eqb s "" then None else Some s
  | None => None
  end.

Section WithOs.
Variable os : Os.

(** [JavaDocBuilder()]: the class under Jython, otherwise the function
    that raises. *)
Definition JavaDocBuilder : result builder :=
  if JYTHON os then Ok JythonJavaDocBuilder
  else Raise (DataError
                [Txt "Documenting Java test libraries requires Jython."]).

Definition _get_extension (source : string) : string :=
  lower os (from_1 (snd (splitext os source))).

Definition DocumentationBuilder (library_or_resource : string)
  : result builder :=
  if path_exists os library_or_resource then
    let extension := _get_extension library_or_resource in
    if str_in extension RESOURCE_EXTENSIONS then Ok ResourceDocBuilder
    else if str_in extension SPEC_EXTENSIONS then Ok SpecDocBuilder
    else if String.eqb extension "json" then Ok JsonDocBuilder
    else if String.eqb extension "java" then JavaDocBuilder
    else Ok LibraryDocBuilder
  else Ok LibraryDocBuilder.

(** [_build] calls itself; [fuel] bounds the depth of the calls, and
    [None] means the bound was reached. *)
Fixpoint _build (fuel : nat) (b : builder) (source : string)
  : option (result LibraryDoc) :=
  match fuel with
  | O => None
  | S fuel' =>
      match build os b source with
      | Ok libdoc => Some (Ok libdoc)
      | Raise (DataError msg) =>
          if is_LibraryDocBuilder b
             && negb (path_exists os source)
             && str_in (_get_extension source) RESOURCE_EXTENSIONS
          then _build fuel' ResourceDocBuilder source
          else Some (Raise (DataError msg))
      | Raise e =>
          Some (Raise (DataError
                         [Txt "Building library '"; Txt source;
                          Txt "' failed: "; Txt (get_error_message os e)]))
      end
  end.

Definition LibraryDocumentation (fuel : nat) (library_or_resource : string)
    (name_arg version_arg doc_format_arg : option string)
  : option (result LibraryDoc) :=
  match DocumentationBuilder library_or_resource with
  | Raise e => Some (Raise e)
  | Ok b =>
      match _build fuel b library_or_resource with
      | None => None
      | Some (Raise e) => Some (Raise e)
      | Some (Ok libdoc) =>
          let libdoc :=
            match if_truthy name_arg with
            | Some n =>
                mkLibraryDoc n (version libdoc) (doc_format libdoc)
                  (content libdoc)
            | None => libdoc
            end in
          let libdoc :=
            match if_truthy version_arg with
            | Some v =>
                mkLibraryDoc (name libdoc) v (doc_format libdoc)
                  (content libdoc)
            | None => libdoc
            end in
          let libdoc :=
            match if_truthy doc_format_arg with
            | Some f =>
                mkLibraryDoc (name libdoc) (version libdoc) f
                  (content libdoc)
            | None => libdoc
            end in
          Some (Ok libdoc)
      end
  end.

End WithOs.

End Builder.

(** ** Sample sources for the documentation builder *)

Module SampleOs.

(** The text before the last dot and the text from it on, for a plain
    file name. *)
Fixpoint split_last_dot (s : string) : option (string * string) :=
  match s with
  | EmptyString => None
  | String c rest =>
      match split_last_dot rest with
      | Some (root, ext) => Some (String c root, ext)
      | None =>
          if Ascii.eqb c (Ascii.ascii_of_nat 46)
          then Some (EmptyString, String c rest)
          else None
      end
  end.

Definition splitext (s : string) : string * string :=
  match split_last_dot s with
  | Some parts => parts
  | None => (s, EmptyString)
  end.

Definition lower_char (c : Ascii.ascii) : Ascii.ascii :=
  let n := Ascii.nat_of_ascii c in
  if (Nat.leb 65 n && Nat.leb n 90)%bool
  then Ascii.ascii_of_nat (n + 32) else c.

Fixpoint lower (s : string) : string :=
  match s with
  | EmptyString => EmptyString
  | String c rest => String (lower_char c) (lower rest)
  end.

Definition path_exists (s : string) : bool :=
  String.eqb s "suite.ROBOT" || String.eqb s "Lib.java"
  || String.eqb s "spec.xml".

(** The library builder finds no library with the given name; the resource
    builder parses any source; the specification builder stumbles. *)
Definition build (b : Builder.builder) (source : string)
  : result Builder.LibraryDoc :=
  match b with
  | Builder.LibraryDocBuilder =>
      Raise (DataError [Txt "Importing library '"; Txt source;
                        Txt "' failed."])
  | Builder.SpecDocBuilder => Raise (KeyError "keywordspec")
  | _ => Ok (Builder.mkLibraryDoc source "1.0" "ROBOT" [])
  end.

Definition os : Builder.Os :=
  Builder.mkOs path_exists splitext lower false
    (fun _ => "KeyError: 'keywordspec'") build.

End SampleOs.

(** ** More sample listeners *)

Module MoreSamples.

(** [ROBOT_LISTENER_API_VERSION = float('inf')]. *)
Definition listener_inf : Listener :=
  mkListener None "ListenerInf" (Some (PyInf false))
    (Sample.all_hooks Sample.quiet).

(** A module used as a listener, with version 3 given as a number. *)
Definition module_v3 : Listener :=
  mkListener (Some "my_listener") "module" (Some (PyInt 3))
    (Sample.all_hooks Sample.quiet).


(** A test suite object without its [suites]. *)
Definition broken_suite : object :=
  [("name", PyStr "Suite"); ("tests", PyRef 1); ("test_count", PyInt 5)].

(** A body item without its [type]. *)
Definition untyped_item : object :=
  [("IF_ELSE_ROOT", PyStr "IF/ELSE ROOT");
   ("TRY_EXCEPT_ROOT", PyStr "TRY/EXCEPT ROOT")].

End MoreSamples.

(** Every dispatcher name has a dispatcher in the class dictionary. *)
Definition initialised (w : World) : Prop :=
  forall key,
    In key LibraryListeners._method_names ->
    exists method, lookup key (_methods w) = Some method.

(** The keys of the class dictionary, in order. *)
Definition keys (w : World) : list string := map fst (_methods w).

(** * Properties *)

(** ** Dictionaries *)

Lemma lookup_set_item_same {A : Type} (k : string) (a : A) d :
  lookup k (set_item k a d) = Some a.
Proof.
  induction d as [|[k' a'] d IH]; simpl.
  - now rewrite String.eqb_refl.
  - destruct (String.eqb k k') eqn:E; simpl.
    + now rewrite String.eqb_refl.
    + now rewrite E.
Qed.

Lemma lookup_set_item_other {A : Type} (k k' : string) (a : A) d :
  k <> k' -> lookup k (set_item k' a d) = lookup k d.
Proof.
  intros Hne. induction d as [|[k0 a0] d IH]; simpl.
  - apply String.eqb_neq in Hne. now rewrite Hne.
  - destruct (String.eqb k' k0) eqn:E; simpl.
    + apply String.eqb_eq in E. subst k0.
      apply String.eqb_neq in Hne. now rewrite Hne.
    + destruct (String.eqb k k0); auto.
Qed.

Lemma lookup_set_item {A : Type} (k k' : string) (a : A) d :
  lookup k (set_item k' a d) =
  if String.eqb k k' then Some a else lookup k d.
Proof.
  destruct (String.eqb k k') eqn:E.
  - apply String.eqb_eq in E. subst. apply lookup_set_item_same.
  - apply String.eqb_neq in E. now apply lookup_set_item_other.
Qed.

Lemma lookup_del_item_same {A : Type} (k : string) (d : list (string * A)) :
  lookup k (del_item k d) = None.
Proof.
  induction d as [|[k' a'] d IH]; simpl; auto.
  destruct (String.eqb k k') eqn:E; simpl; auto. now rewrite E.
Qed.

Lemma lookup_del_item_other {A : Type} (k k' : string)
    (d : list (string * A)) :
  k <> k' -> lookup k (del_item k' d) = lookup k d.
Proof.
  intros Hne. induction d as [|[k0 a0] d IH]; simpl; auto.
  destruct (String.eqb k' k0) eqn:E; simpl.
  - apply String.eqb_eq in E. subst k0.
    apply String.eqb_neq in Hne. now rewrite Hne.
  - now rewrite IH.
Qed.

(** Assigning [g name] under every name of a list, in order. *)
Lemma lookup_fold_set_item {A : Type} (g : string -> A) names acc k :
  lookup k (fold_left (fun d name => set_item name (g name) d) names acc) =
  if existsb (String.eqb k) names then Some (g k) else lookup k acc.
Proof.
  revert acc. induction names as [|n names IH]; intros acc; simpl; auto.
  rewrite IH, lookup_set_item.
  destruct (String.eqb k n) eqn:E; simpl.
  - apply String.eqb_eq in E. subst n.
    now destruct (existsb (String.eqb k) names).
  - reflexivity.
Qed.

Lemma existsb_eqb_in k names :
  In k names -> existsb (String.eqb k) names = true.
Proof.
  intros Hin. apply existsb_exists. exists k. split; auto.
  apply String.eqb_refl.
Qed.

(** The hook table that [AbstractLoggerProxy.__init__] builds holds, for
    each of the method names, what [_get_method] finds for it. *)
Lemma abstract_init_lookup no_method l prefix names k :
  In k names ->
  lookup k (AbstractLoggerProxy.__init__ no_method l names prefix) =
  Some (AbstractLoggerProxy._get_method no_method l k prefix).
Proof.
  intros Hin. unfold AbstractLoggerProxy.__init__.
  rewrite (lookup_fold_set_item
             (fun name =>
                AbstractLoggerProxy._get_method no_method l name prefix)).
  now rewrite existsb_eqb_in.
Qed.

(** ** Reading a trace *)

Lemma invocations_app e1 e2 :
  invocations (e1 ++ e2) = invocations e1 ++ invocations e2.
Proof.
  induction e1 as [|[p m a|msg] e1 IH]; simpl; auto. now rewrite IH.
Qed.

Lemma logged_errors_app e1 e2 :
  logged_errors (e1 ++ e2) = logged_errors e1 ++ logged_errors e2.
Proof.
  induction e1 as [|[p m a|msg] e1 IH]; simpl; auto. now rewrite IH.
Qed.

(** ** Calling a dispatcher *)

Lemma world_eta w : mkWorld (_methods w) (trace w) = w.
Proof. now destruct w. Qed.

Lemma notify_runs method_name args entry w :
  LibraryListenerMethods.notify method_name args entry w =
  (Ok tt,
   mkWorld (_methods w) (trace w ++ notification method_name args entry)).
Proof.
  unfold LibraryListenerMethods.notify, notification.
  destruct (lookup method_name (hooks (snd entry))) as [[method|]|];
    try (unfold ret; now rewrite app_nil_r, world_eta).
  unfold bind, emit, ret, LOGGER_error, emit. simpl.
  destruct (method args); simpl; auto.
  now rewrite <- app_assoc.
Qed.

(** A pass over a list of bindings never raises and leaves the dictionary
    alone. *)
Lemma pass_runs method_name args entries w :
  for_each entries (LibraryListenerMethods.notify method_name args) w =
  (Ok tt,
   mkWorld (_methods w) (trace w ++ notifications method_name args entries)).
Proof.
  revert w. induction entries as [|entry entries IH]; intros w; simpl.
  - unfold ret. now rewrite app_nil_r, world_eta.
  - unfold bind. rewrite notify_runs, IH. simpl.
    now rewrite <- app_assoc.
Qed.

Lemma call_runs self args lib w :
  LibraryListenerMethods.__call__ self args lib w =
  (Ok tt,
   mkWorld (_methods w)
     (trace w ++
      notifications (_method_name self) args
        (LibraryListenerMethods.targets self lib))).
Proof. apply pass_runs. Qed.

(** The present hooks of all the bindings are entered, in order, whatever
    any of them does. *)
Lemma invocations_notifications method_name args entries :
  invocations (notifications method_name args entries) =
  notified method_name args entries.
Proof.
  unfold notifications, notified.
  induction entries as [|entry entries IH]; simpl; auto.
  rewrite invocations_app, IH. unfold notification, has_hook.
  destruct (lookup method_name (hooks (snd entry))) as [[method|]|];
    simpl; auto.
  now destruct (method args).
Qed.

(** Each hook that raises is reported, with the display name of its
    listener and the error message. *)
Lemma raised_is_logged method_name args entries entry method error :
  In entry entries ->
  lookup method_name (hooks (snd entry)) = Some (Some method) ->
  method args = Raised error ->
  In [Txt (name (snd entry)); Txt error]
     (logged_errors (notifications method_name args entries)).
Proof.
  intros Hin Hl Hr. unfold notifications.
  induction entries as [|e entries IH]; simpl in *; [contradiction|].
  rewrite logged_errors_app. apply in_or_app.
  destruct Hin as [->|Hin]; [left|right; auto].
  unfold notification. rewrite Hl, Hr. simpl. now left.
Qed.

Lemma nothing_logged method_name args entries :
  (forall entry method,
      In entry entries ->
      lookup method_name (hooks (snd entry)) = Some (Some method) ->
      method args = Returned) ->
  logged_errors (notifications method_name args entries) = [].
Proof.
  unfold notifications.
  induction entries as [|e entries IH]; intros Hall; simpl; auto.
  rewrite logged_errors_app, IH by (intros; eapply Hall; eauto; now right).
  rewrite app_nil_r. unfold notification.
  destruct (lookup method_name (hooks (snd e))) as [[method|]|] eqn:E;
    auto.
  rewrite (Hall e method); auto. now left.
Qed.

(** ** Isolate-and-continue notification *)

(** C2.  For every call of a dispatcher over its active bindings (all of
    them, or those of one library), the call returns normally: the present
    hook of every binding it reaches is entered, once and in registration
    order, with the same arguments, whatever the hooks of the other
    bindings do, and every hook that raises is reported through the logger
    with the display name of its listener and the error message.  In
    particular, when the [log_message] dispatcher has three active
    bindings with a [log_message] hook and the level filter accepts the
    message, [LibraryListeners.log_message] returns normally and all three
    hooks are entered with that message, also when one of them raises. *)
Theorem notification_errors_are_isolated :
  (forall (self : LibraryListenerMethods) (args : list payload)
          (lib : option library) (w : World),
      exists new,
        LibraryListenerMethods.__call__ self args lib w =
          (Ok tt, mkWorld (_methods w) (trace w ++ new)) /\
        invocations new =
          notified (_method_name self) args
            (LibraryListenerMethods.targets self lib) /\
        (forall entry method error,
            In entry (LibraryListenerMethods.targets self lib) ->
            lookup (_method_name self) (hooks (snd entry)) =
              Some (Some method) ->
            method args = Raised error ->
            In [Txt (name (snd entry)); Txt error] (logged_errors new)))
  /\
  (forall (env : Env) (self : LibraryListeners) (msg : Message) (w : World)
          (method : LibraryListenerMethods) (a b c : library * ListenerProxy),
      lookup "log_message" (_methods w) = Some method ->
      _method_name method = "log_message" ->
      active method = [a; b; c] ->
      has_hook "log_message" a = true ->
      has_hook "log_message" b = true ->
      has_hook "log_message" c = true ->
      IsLogged.__call__ env (_is_logged self) (level msg) = true ->
      exists new,
        LibraryListeners.log_message env self msg w =
          (Ok tt, mkWorld (_methods w) (trace w ++ new)) /\
        invocations new =
          [(snd a, "log_message", [Msg msg]);
           (snd b, "log_message", [Msg msg]);
           (snd c, "log_message", [Msg msg])] /\
        (forall entry method' error,
            In entry [a; b; c] ->
            lookup "log_message" (hooks (snd entry)) = Some (Some method') ->
            method' [Msg msg] = Raised error ->
            In [Txt (name (snd entry)); Txt error] (logged_errors new))).
Proof.
  split.
  - intros self args lib w.
    exists (notifications (_method_name self) args
              (LibraryListenerMethods.targets self lib)).
    split; [apply call_runs|].
    split; [apply invocations_notifications|].
    intros entry method error. apply raised_is_logged.
  - intros env self msg w method a b c Hm Hn Ha Ha' Hb' Hc' Hlog.
    exists (notifications "log_message" [Msg msg] [a; b; c]).
    split; [|split].
    + unfold LibraryListeners.log_message. rewrite Hlog.
      unfold bind, LibraryListeners.methods_getitem. rewrite Hm.
      rewrite call_runs, Hn. simpl LibraryListenerMethods.targets.
      now rewrite Ha.
    + rewrite invocations_notifications. unfold notified. simpl.
      now rewrite Ha', Hb', Hc'.
    + intros entry method' error. apply raised_is_logged.
Qed.

Lemma notification_errors_are_isolated_witness :
  let a := (1%nat, Sample.proxy_of Sample.listener_v2 "ListenerV2" 2) in
  let b := (1%nat, Sample.proxy_of Sample.listener_failing "failing_module" 2) in
  let c := (2%nat, Sample.proxy_of Sample.listener_v3 "ListenerV3" 2) in
  let method := mkLibraryListenerMethods "log_message" [a; b; c] [] in
  let w := mkWorld [("log_message", method)] [] in
  let self := mkLibraryListeners (IsLogged.__init__ "INFO") in
  exists new,
    LibraryListeners.log_message Sample.env self Sample.warning w =
      (Ok tt, mkWorld (_methods w) (trace w ++ new)) /\
    invocations new =
      [(snd a, "log_message", [Msg Sample.warning]);
       (snd b, "log_message", [Msg Sample.warning]);
       (snd c, "log_message", [Msg Sample.warning])] /\
    In [Txt "failing_module"; Txt "boom"] (logged_errors new).
Proof.
  intros a b c method w self.
  destruct (proj2 notification_errors_are_isolated Sample.env self
              Sample.warning w method a b c)
    as (new & Hrun & Hinv & Hlog); try reflexivity.
  exists new. split; [exact Hrun|]. split; [exact Hinv|].
  apply (Hlog b Sample.failing "boom"); [simpl; auto|reflexivity..].
Defined.

(** ** Importing listeners *)

Section Importing.
Variable env : Env.
Variable method_names : list string.
Variable prefix : option string.


Lemma import_raises_at listeners proxies bad rest err imported w :
  Forall2 (resolves env method_names prefix) listeners proxies ->
  ListenerProxy.__init__ env bad method_names prefix =
    Raise (DataError err) ->
  ListenerProxy.import_listeners_from env imported
    (listeners ++ bad :: rest) method_names prefix true w =
  (Raise (DataError
            ([Txt "Taking listener '";
              Txt (ListenerProxy.reference_name bad);
              Txt "' into use failed: "] ++ err)), w).
Proof.
  intros Hall Hbad. revert imported.
  induction Hall as [|listener proxy listeners proxies Hr _ IH];
    intros imported; simpl.
  - now rewrite Hbad.
  - unfold resolves in Hr. now rewrite Hr, IH.
Qed.


(** With [raise_on_error] the batch either resolves completely or raises
    and leaves the world as it was. *)
Lemma import_all_or_nothing listeners imported w :
  (exists proxies,
      Forall2 (resolves env method_names prefix) listeners proxies /\
      ListenerProxy.import_listeners_from env imported listeners
        method_names prefix true w = (Ok (imported ++ proxies), w)) \/
  (exists e,
      ListenerProxy.import_listeners_from env imported listeners
        method_names prefix true w = (Raise e, w)).
Proof.
  revert imported.
  induction listeners as [|listener listeners IH]; intros imported; simpl.
  - left. exists []. split; [constructor|]. unfold ret.
    now rewrite app_nil_r.
  - destruct (ListenerProxy.__init__ env listener method_names prefix)
      as [proxy|e] eqn:E.
    + destruct (IH (imported ++ [proxy])) as [(ps & Hall & Hrun)|(e & Hrun)].
      * left. exists (proxy :: ps). split; [now constructor|].
        rewrite Hrun. now rewrite <- app_assoc.
      * right. now exists e.
    + right. destruct e; eexists; reflexivity.
Qed.

End Importing.




(** ** The version marker *)

Lemma get_version_supported env nm l z :
  ListenerProxy._get_version env nm l = Ok z -> z = 2 \/ z = 3.
Proof.
  unfold ListenerProxy._get_version.
  destruct (ROBOT_LISTENER_API_VERSION l) as [marker|]; [|discriminate].
  destruct (int env marker) as [version|e].
  - unfold py_in. simpl.
    destruct (version =? 2) eqn:E2; simpl.
    + intros H. inversion H. subst. left. now apply Z.eqb_eq.
    + destruct (version =? 3) eqn:E3; simpl.
      * intros H. inversion H. subst. right. now apply Z.eqb_eq.
      * discriminate.
  - destruct e; discriminate.
Qed.

Lemma get_version_missing env nm l :
  ROBOT_LISTENER_API_VERSION l = None ->
  ListenerProxy._get_version env nm l =
  Raise (DataError [Txt "Listener '"; Txt nm;
                    Txt "' does not have mandatory ";
                    Txt "'ROBOT_LISTENER_API_VERSION' attribute."]).
Proof.
  intros H. unfold ListenerProxy._get_version. now rewrite H.
Qed.

Lemma get_version_unsupported env nm l marker :
  ROBOT_LISTENER_API_VERSION l = Some marker ->
  int env marker = Raise ValueError \/
  int env marker = Raise TypeError \/
  (exists z, int env marker = Ok z /\ z <> 2 /\ z <> 3) ->
  ListenerProxy._get_version env nm l =
  Raise (DataError [Txt "Listener '"; Txt nm;
                    Txt "' uses unsupported API version '";
                    Fmt marker; Txt "'."]).
Proof.
  intros H Hbad. unfold ListenerProxy._get_version. rewrite H.
  destruct Hbad as [-> | [-> | (z & -> & H2 & H3)]]; auto.
  unfold py_in. simpl.
  apply Z.eqb_neq in H2, H3. now rewrite H2, H3.
Qed.

Lemma init_raises_version_error env listener l nm names prefix e :
  ListenerProxy._import_listener env listener = Ok (l, nm) ->
  ListenerProxy._get_version env nm l = Raise e ->
  ListenerProxy.__init__ env listener names prefix = Raise e.
Proof.
  intros Hi Hv. unfold ListenerProxy.__init__. now rewrite Hi, Hv.
Qed.

(** Registration through the router fails as the import does, before any
    dispatcher is touched. *)
Lemma register_raises env self listeners lib w e :
  ListenerProxy.import_listeners env listeners
    LibraryListeners._method_names (Some "_") true w = (Raise e, w) ->
  LibraryListeners.register env self listeners lib w = (Raise e, w).
Proof.
  intros H. unfold LibraryListeners.register, bind. now rewrite H.
Qed.

(** C1, as amended.  For every listener whose version marker is missing,
    or is a value that [int] rejects with [ValueError] or [TypeError], or
    is a value that [int] converts to an integer other than 2 and 3,
    constructing a binding fails with a [DataError] whose message names
    the listener and, when the marker is present, includes its value.
    Registering a batch in which the references before this one resolve
    then fails with a [DataError] that names the listener (and includes
    the value), and registering any batch that contains the reference
    fails and leaves every dispatcher as it was. *)
Theorem unsupported_version_is_rejected :
  forall (env : Env) (listener : reference) (l : Listener) (nm : string),
    ListenerProxy._import_listener env listener = Ok (l, nm) ->
    (ROBOT_LISTENER_API_VERSION l = None \/
     exists marker,
       ROBOT_LISTENER_API_VERSION l = Some marker /\
       (int env marker = Raise ValueError \/
        int env marker = Raise TypeError \/
        exists z, int env marker = Ok z /\ z <> 2 /\ z <> 3)) ->
    exists err,
      In (Txt nm) err /\
      (forall marker,
          ROBOT_LISTENER_API_VERSION l = Some marker -> In (Fmt marker) err) /\
      (forall method_names prefix,
          ListenerProxy.__init__ env listener method_names prefix =
          Raise (DataError err)) /\
      (forall self before bound after lib w,
          Forall2 (resolves env LibraryListeners._method_names (Some "_"))
                  before bound ->
          LibraryListeners.register env self (before ++ listener :: after)
            lib w =
          (Raise (DataError
                    ([Txt "Taking listener '";
                      Txt (ListenerProxy.reference_name listener);
                      Txt "' into use failed: "] ++ err)), w)) /\
      (forall self listeners lib w,
          In listener listeners ->
          exists e,
            LibraryListeners.register env self listeners lib w =
            (Raise e, w)).
Proof.
  intros env listener l nm Himp Hbad.
  assert (exists err,
             In (Txt nm) err /\
             (forall marker,
                 ROBOT_LISTENER_API_VERSION l = Some marker ->
                 In (Fmt marker) err) /\
             ListenerProxy._get_version env nm l = Raise (DataError err))
    as (err & Hnm & Hval & Hver).
  { destruct Hbad as [Hnone | (marker & Hsome & Hrej)].
    - eexists. split; [|split; [|now apply get_version_missing]].
      + simpl. auto.
      + intros marker H. congruence.
    - eexists. split; [|split; [|eapply get_version_unsupported; eassumption]].
      + simpl. auto.
      + intros m H. assert (m = marker) by congruence. subst.
        simpl. auto. }
  assert (forall method_names prefix,
             ListenerProxy.__init__ env listener method_names prefix =
             Raise (DataError err)) as Hinit
      by (intros; now apply (init_raises_version_error env listener l nm)).
  exists err. repeat split; auto.
  - intros self before bound after lib w Hall.
    apply register_raises. unfold ListenerProxy.import_listeners.
    now apply (import_raises_at env LibraryListeners._method_names
                 (Some "_") before bound).
  - intros self listeners lib w Hin.
    destruct (import_all_or_nothing env LibraryListeners._method_names
                (Some "_") listeners [] w)
      as [(proxies & Hall & _) | (e & Hrun)].
    + exfalso. clear - Hall Hin Hinit.
      induction Hall as [|r p rs ps Hr _ IH]; [contradiction|].
      destruct Hin as [->|Hin]; auto.
      unfold resolves in Hr. rewrite Hinit in Hr. discriminate.
    + exists e. now apply register_raises.
Qed.

Lemma unsupported_version_is_rejected_witness :
  exists err,
    In (Txt "ListenerV1") err /\ In (Fmt (PyInt 1)) err /\
    ListenerProxy.__init__ Sample.env (Live Sample.listener_v1)
      LibraryListeners._method_names (Some "_") = Raise (DataError err) /\
    exists e,
      LibraryListeners.register Sample.env
        (mkLibraryListeners (IsLogged.__init__ "INFO"))
        [Text "listeners.V2"; Live Sample.listener_v1] 7%nat
        Sample.empty_world = (Raise e, Sample.empty_world).
Proof.
  destruct (unsupported_version_is_rejected Sample.env
              (Live Sample.listener_v1) Sample.listener_v1 "ListenerV1")
    as (err & Hnm & Hval & Hinit & _ & Hreg).
  - reflexivity.
  - right. exists (PyInt 1). split; [reflexivity|].
    right. right. exists 1. repeat split; lia.
  - exists err. split; [exact Hnm|]. split; [now apply Hval|].
    split; [apply Hinit|]. apply Hreg. simpl. auto.
Defined.

(** C1, as stated, fails: the marker [2.5] is present and is not one of 2
    and 3, yet [int] truncates it to 2, the binding is constructed with
    version 2, and [register] adds it to the dispatchers. *)
Lemma marker_2_5_is_accepted :
  let self := mkLibraryListeners (IsLogged.__init__ "INFO") in
  let w := snd (LibraryListeners.__init__ "INFO" Sample.empty_world) in
  let proxy := Sample.proxy_of Sample.listener_v2_5 "ListenerV2_5" 2 in
  ROBOT_LISTENER_API_VERSION Sample.listener_v2_5 = Some (PyFloat 5 1) /\
  marker_is_2_or_3 (PyFloat 5 1) = false /\
  ListenerProxy.__init__ Sample.env (Live Sample.listener_v2_5)
    LibraryListeners._method_names (Some "_") = Ok proxy /\
  exists w',
    LibraryListeners.register Sample.env self [Live Sample.listener_v2_5]
      7%nat w = (Ok tt, w') /\
    lookup "start_suite" (_methods w') =
      Some (mkLibraryListenerMethods "start_suite" [(7%nat, proxy)] []).
Proof.
  intros self w proxy.
  split; [reflexivity|]. split; [reflexivity|].
  split; [vm_compute; reflexivity|].
  eexists. split; [reflexivity|]. vm_compute. reflexivity.
Qed.

(** ** Hooks by API version *)

Lemma get_method_none l k prefix :
  AbstractLoggerProxy._get_method ListenerProxy._no_method l k prefix =
  exposed l k.
Proof.
  unfold AbstractLoggerProxy._get_method, ListenerProxy._no_method.
  now destruct (exposed l k).
Qed.

(** What construction yields when it succeeds. *)
Lemma init_ok env listener method_names prefix proxy :
  ListenerProxy.__init__ env listener method_names prefix = Ok proxy ->
  exists l nm table,
    ListenerProxy._import_listener env listener = Ok (l, nm) /\
    table =
      del_item "version"
        (del_item "name"
           (AbstractLoggerProxy.__init__ ListenerProxy._no_method l
              method_names prefix)) /\
    ((version proxy = 2 /\ proxy = mkListenerProxy l table nm 2) \/
     (version proxy = 3 /\
      proxy =
        mkListenerProxy l
          (set_item "variables_import" None
             (set_item "resource_import" None
                (set_item "library_import" None
                   (set_item "end_keyword" None
                      (set_item "start_keyword" None table)))))
          nm 3)).
Proof.
  unfold ListenerProxy.__init__.
  destruct (ListenerProxy._import_listener env listener) as [[l nm]|e];
    [|discriminate].
  destruct (ListenerProxy._get_version env nm l) as [z|e] eqn:Hv;
    [|discriminate].
  intros H. inversion H. subst proxy. clear H.
  do 3 eexists. split; [reflexivity|]. split; [reflexivity|].
  destruct (get_version_supported _ _ _ _ Hv) as [-> | ->]; simpl; auto.
Qed.

(** A dispatcher whose only binding has no hook of its kind calls
    nothing. *)
Lemma call_absent_hook hook_name lib proxy saved args target w :
  lookup hook_name (hooks proxy) = Some None ->
  LibraryListenerMethods.__call__
    (mkLibraryListenerMethods hook_name [(lib, proxy)] saved)
    args target w = (Ok tt, w).
Proof.
  intros Hnone. rewrite call_runs. simpl _method_name.
  assert (forall entries,
             incl entries [(lib, proxy)] ->
             notifications hook_name args entries = []) as Hquiet.
  { induction entries as [|e entries IH]; intros Hincl; auto.
    unfold notifications in *. simpl.
    rewrite IH by (intros x Hx; apply Hincl; now right).
    destruct (Hincl e) as [<-|[]]; [now left|].
    unfold notification. simpl snd. now rewrite Hnone. }
  rewrite Hquiet; [now rewrite app_nil_r, world_eta|].
  destruct target as [t|]; simpl; [|apply incl_refl].
  destruct (LibraryListenerMethods.owned_by t (lib, proxy));
    [apply incl_refl|intros x []].
Qed.

(** C4.  Every binding has version 2 or 3.  For every binding of version
    3, the attributes [start_keyword], [end_keyword], [library_import],
    [resource_import] and [variables_import] are the marker [None] (the
    binding is never changed after construction), so a dispatcher of that
    kind that notifies the binding calls nothing and leaves the world as
    it was.  For every binding of version 2, the [start_keyword] and
    [end_keyword] attributes are what the listener exposes under these
    names, and a dispatcher of that kind enters the exposed method, once,
    with the arguments of the call. *)
Theorem keyword_hooks_by_version :
  forall (env : Env) (listener : reference) (method_names : list string)
         (prefix : option string) (proxy : ListenerProxy),
    ListenerProxy.__init__ env listener method_names prefix = Ok proxy ->
    (version proxy = 2 \/ version proxy = 3) /\
    (version proxy = 3 ->
     forall hook_name,
       In hook_name ["start_keyword"; "end_keyword"; "library_import";
                     "resource_import"; "variables_import"] ->
       lookup hook_name (hooks proxy) = Some None /\
       forall lib saved args target w,
         LibraryListenerMethods.__call__
           (mkLibraryListenerMethods hook_name [(lib, proxy)] saved)
           args target w = (Ok tt, w)) /\
    (version proxy = 2 ->
     forall hook_name,
       In hook_name ["start_keyword"; "end_keyword"] ->
       In hook_name method_names ->
       lookup hook_name (hooks proxy) =
         Some (exposed (logger proxy) hook_name) /\
       forall method lib saved args w,
         exposed (logger proxy) hook_name = Some method ->
         exists new,
           LibraryListenerMethods.__call__
             (mkLibraryListenerMethods hook_name [(lib, proxy)] saved)
             args None w =
             (Ok tt, mkWorld (_methods w) (trace w ++ new)) /\
           invocations new = [(proxy, hook_name, args)]).
Proof.
  intros env listener method_names prefix proxy Hinit.
  destruct (init_ok _ _ _ _ _ Hinit) as (l & nm & table & _ & Htable & Hcase).
  split; [destruct Hcase as [[H _]|[H _]]; auto|]. split.
  - intros H3 hook_name Hin.
    destruct Hcase as [[H2 _]|[_ ->]]; [rewrite H2 in H3; discriminate|].
    assert (lookup hook_name
              (hooks
                 (mkListenerProxy l
                    (set_item "variables_import" None
                       (set_item "resource_import" None
                          (set_item "library_import" None
                             (set_item "end_keyword" None
                                (set_item "start_keyword" None table)))))
                    nm 3)) = Some None) as Hnone.
    { simpl in Hin. simpl hooks.
      destruct Hin as [<-|[<-|[<-|[<-|[<-|[]]]]]];
        rewrite !lookup_set_item; reflexivity. }
    split; [exact Hnone|].
    intros lib saved args target w. now apply call_absent_hook.
  - intros H2 hook_name Hkw Hin.
    destruct Hcase as [[_ ->]|[H3 _]]; [|rewrite H3 in H2; discriminate].
    assert (lookup hook_name (hooks (mkListenerProxy l table nm 2)) =
            Some (exposed l hook_name)) as Hl.
    { simpl. subst table.
      rewrite !lookup_del_item_other
        by (simpl in Hkw; destruct Hkw as [<-|[<-|[]]]; discriminate).
      rewrite abstract_init_lookup by exact Hin.
      now rewrite get_method_none. }
    split; [exact Hl|].
    intros method lib saved args w Hex. simpl in Hex.
    eexists. split; [apply call_runs|].
    rewrite invocations_notifications. unfold notified, has_hook.
    simpl in *. rewrite Hl, Hex. reflexivity.
Qed.

Lemma keyword_hooks_by_version_witness :
  exists v3 v2,
    ListenerProxy.__init__ Sample.env (Text "listeners.V3")
      LibraryListeners._method_names (Some "_") = Ok v3 /\
    ListenerProxy.__init__ Sample.env (Text "listeners.V2")
      LibraryListeners._method_names (Some "_") = Ok v2 /\
    lookup "start_keyword" (hooks v3) = Some None /\
    lookup "start_keyword" (hooks v2) = Some (Some Sample.quiet) /\
    LibraryListenerMethods.__call__
      (mkLibraryListenerMethods "start_keyword" [(1%nat, v3)] [])
      [] None Sample.empty_world = (Ok tt, Sample.empty_world).
Proof.
  eexists. eexists.
  split; [reflexivity|]. split; [reflexivity|].
  pose proof (keyword_hooks_by_version Sample.env (Text "listeners.V3")
                LibraryListeners._method_names (Some "_") _ eq_refl)
    as (_ & H3 & _).
  pose proof (keyword_hooks_by_version Sample.env (Text "listeners.V2")
                LibraryListeners._method_names (Some "_") _ eq_refl)
    as (_ & _ & H2).
  destruct (H3 eq_refl "start_keyword") as (Hnone & Hcall);
    [simpl; auto|].
  destruct (H2 eq_refl "start_keyword") as (Hsome & _);
    [simpl; auto|simpl; tauto|].
  split; [exact Hnone|]. split; [exact Hsome|]. apply Hcall.
Defined.

(** ** Events through the router *)

(** An event entry point that finds its dispatcher hands it the payload. *)
Lemma dispatch_runs key method args lib w :
  lookup key (_methods w) = Some method ->
  (method <- LibraryListeners.methods_getitem key ;;
   LibraryListenerMethods.__call__ method args lib) w =
  LibraryListenerMethods.__call__ method args lib w.
Proof.
  intros H. unfold bind, LibraryListeners.methods_getitem. now rewrite H.
Qed.

Lemma not_a_root_runs data type if_else_root try_except_root w :
  getattr data "type" = Ok type ->
  getattr data "IF_ELSE_ROOT" = Ok if_else_root ->
  getattr data "TRY_EXCEPT_ROOT" = Ok try_except_root ->
  LibraryListeners.not_a_root data w =
  (Ok (negb (py_eq type if_else_root || py_eq type try_except_root)), w).
Proof.
  intros Ht Hi Hx. unfold LibraryListeners.not_a_root, bind, lift, ret.
  rewrite Ht, Hi, Hx. unfold py_in. simpl. now rewrite orb_false_r.
Qed.

(** C5.  For every body item whose [type] equals its [IF_ELSE_ROOT] or its
    [TRY_EXCEPT_ROOT] constant, [start_body_item] and [end_body_item]
    return without calling a dispatcher: the world, and so the trace, is
    unchanged.  For every other body item each of them makes exactly one
    call, of the [start_keyword] (respectively [end_keyword]) dispatcher
    with the combined view of the data and result objects, which enters
    the hook of every active binding that has one, once. *)
Theorem body_items_except_roots :
  forall (self : LibraryListeners) (data result : object) (w : World)
         (type if_else_root try_except_root : value),
    getattr data "type" = Ok type ->
    getattr data "IF_ELSE_ROOT" = Ok if_else_root ->
    getattr data "TRY_EXCEPT_ROOT" = Ok try_except_root ->
    (py_eq type if_else_root = true \/ py_eq type try_except_root = true ->
     LibraryListeners.start_body_item self data result w = (Ok tt, w) /\
     LibraryListeners.end_body_item self data result w = (Ok tt, w)) /\
    (py_eq type if_else_root = false ->
     py_eq type try_except_root = false ->
     forall starts ends,
       lookup "start_keyword" (_methods w) = Some starts ->
       lookup "end_keyword" (_methods w) = Some ends ->
       let view := View (mkModelCombiner data result []) in
       (LibraryListeners.start_body_item self data result w =
          LibraryListenerMethods.__call__ starts [view] None w /\
        exists new,
          LibraryListeners.start_body_item self data result w =
            (Ok tt, mkWorld (_methods w) (trace w ++ new)) /\
          invocations new =
            notified (_method_name starts) [view] (active starts)) /\
       (LibraryListeners.end_body_item self data result w =
          LibraryListenerMethods.__call__ ends [view] None w /\
        exists new,
          LibraryListeners.end_body_item self data result w =
            (Ok tt, mkWorld (_methods w) (trace w ++ new)) /\
          invocations new =
            notified (_method_name ends) [view] (active ends))).
Proof.
  intros self data result w type if_else_root try_except_root Ht Hi Hx.
  pose proof (not_a_root_runs data type if_else_root try_except_root w
                Ht Hi Hx) as Hroot.
  split.
  - intros Hor.
    assert (py_eq type if_else_root || py_eq type try_except_root = true)
      as E by (apply orb_true_iff; exact Hor).
    rewrite E in Hroot.
    unfold LibraryListeners.start_body_item, LibraryListeners.end_body_item,
      bind.
    rewrite Hroot. simpl. auto.
  - intros E1 E2 starts ends Hs He view. rewrite E1, E2 in Hroot.
    assert (LibraryListeners.start_body_item self data result w =
            LibraryListenerMethods.__call__ starts [view] None w) as Rs.
    { unfold LibraryListeners.start_body_item, bind at 1.
      rewrite Hroot. simpl negb. cbv iota. now apply dispatch_runs. }
    assert (LibraryListeners.end_body_item self data result w =
            LibraryListenerMethods.__call__ ends [view] None w) as Re.
    { unfold LibraryListeners.end_body_item, bind at 1.
      rewrite Hroot. simpl negb. cbv iota. now apply dispatch_runs. }
    split; (split; [assumption|]).
    + eexists. rewrite Rs. split; [apply call_runs|].
      apply invocations_notifications.
    + eexists. rewrite Re. split; [apply call_runs|].
      apply invocations_notifications.
Qed.

Lemma body_items_except_roots_witness :
  let proxy := Sample.proxy_of Sample.listener_v2 "ListenerV2" 2 in
  let w :=
    mkWorld
      [("start_keyword",
        mkLibraryListenerMethods "start_keyword" [(1%nat, proxy)] []);
       ("end_keyword",
        mkLibraryListenerMethods "end_keyword" [(1%nat, proxy)] [])] [] in
  let self := mkLibraryListeners (IsLogged.__init__ "INFO") in
  LibraryListeners.start_body_item self (Sample.body_item "IF/ELSE ROOT")
    [] w = (Ok tt, w) /\
  LibraryListeners.end_body_item self (Sample.body_item "TRY/EXCEPT ROOT")
    [] w = (Ok tt, w) /\
  exists new,
    LibraryListeners.start_body_item self (Sample.body_item "KEYWORD")
      [] w = (Ok tt, mkWorld (_methods w) (trace w ++ new)) /\
    invocations new =
      [(proxy, "start_keyword",
        [View (mkModelCombiner (Sample.body_item "KEYWORD") [] [])])].
Proof.
  intros proxy w self.
  split; [|split].
  - apply (body_items_except_roots self (Sample.body_item "IF/ELSE ROOT")
             [] w (PyStr "IF/ELSE ROOT") (PyStr "IF/ELSE ROOT")
             (PyStr "TRY/EXCEPT ROOT")); try reflexivity.
    left. reflexivity.
  - apply (body_items_except_roots self (Sample.body_item "TRY/EXCEPT ROOT")
             [] w (PyStr "TRY/EXCEPT ROOT") (PyStr "IF/ELSE ROOT")
             (PyStr "TRY/EXCEPT ROOT")); try reflexivity.
    right. reflexivity.
  - destruct (body_items_except_roots self (Sample.body_item "KEYWORD")
                [] w (PyStr "KEYWORD") (PyStr "IF/ELSE ROOT")
                (PyStr "TRY/EXCEPT ROOT") eq_refl eq_refl eq_refl)
      as (_ & H).
    destruct (H eq_refl eq_refl _ _ eq_refl eq_refl)
      as ((_ & new & Hrun & Hinv) & _).
    exists new. split; [exact Hrun|]. exact Hinv.
Defined.

(** C7.  For every message, [message] hands it to the [message]
    dispatcher whatever its level and whatever the threshold of the router
    (every active binding with a [message] hook is entered), whereas
    [log_message] hands it to the [log_message] dispatcher when the level
    filter accepts its level under the current threshold and does nothing
    at all when the filter rejects it.  The suite and test entry points do
    not depend on the level filter of the router. *)
Theorem only_log_messages_are_filtered :
  forall (env : Env) (self : LibraryListeners) (msg : Message) (w : World)
         (messages logs : LibraryListenerMethods),
    lookup "message" (_methods w) = Some messages ->
    lookup "log_message" (_methods w) = Some logs ->
    (LibraryListeners.message self msg w =
       LibraryListenerMethods.__call__ messages [Msg msg] None w /\
     exists new,
       LibraryListeners.message self msg w =
         (Ok tt, mkWorld (_methods w) (trace w ++ new)) /\
       invocations new =
         notified (_method_name messages) [Msg msg] (active messages)) /\
    (IsLogged.__call__ env (_is_logged self) (level msg) = true ->
     LibraryListeners.log_message env self msg w =
       LibraryListenerMethods.__call__ logs [Msg msg] None w /\
     exists new,
       LibraryListeners.log_message env self msg w =
         (Ok tt, mkWorld (_methods w) (trace w ++ new)) /\
       invocations new =
         notified (_method_name logs) [Msg msg] (active logs)) /\
    (IsLogged.__call__ env (_is_logged self) (level msg) = false ->
     LibraryListeners.log_message env self msg w = (Ok tt, w)) /\
    (forall (other : LibraryListeners) (data result : object),
        LibraryListeners.start_suite self data result w =
          LibraryListeners.start_suite other data result w /\
        LibraryListeners.end_suite self data result w =
          LibraryListeners.end_suite other data result w /\
        LibraryListeners.start_test self data result w =
          LibraryListeners.start_test other data result w /\
        LibraryListeners.end_test self data result w =
          LibraryListeners.end_test other data result w).
Proof.
  intros env self msg w messages logs Hm Hl.
  assert (LibraryListeners.message self msg w =
          LibraryListenerMethods.__call__ messages [Msg msg] None w) as Rm
      by (now apply dispatch_runs).
  split; [|split; [|split]].
  - split; [exact Rm|]. eexists. rewrite Rm.
    split; [apply call_runs|apply invocations_notifications].
  - intros Hyes.
    assert (LibraryListeners.log_message env self msg w =
            LibraryListenerMethods.__call__ logs [Msg msg] None w) as Rl.
    { unfold LibraryListeners.log_message. rewrite Hyes.
      now apply dispatch_runs. }
    split; [exact Rl|]. eexists. rewrite Rl.
    split; [apply call_runs|apply invocations_notifications].
  - intros Hno. unfold LibraryListeners.log_message. now rewrite Hno.
  - intros other data result. repeat split; reflexivity.
Qed.

Lemma only_log_messages_are_filtered_witness :
  let proxy := Sample.proxy_of Sample.listener_v2 "ListenerV2" 2 in
  let w :=
    mkWorld
      [("log_message",
        mkLibraryListenerMethods "log_message" [(1%nat, proxy)] []);
       ("message",
        mkLibraryListenerMethods "message" [(1%nat, proxy)] [])] [] in
  let strict := mkLibraryListeners (IsLogged.__init__ "ERROR") in
  LibraryListeners.log_message Sample.env strict Sample.warning w =
    (Ok tt, w) /\
  exists new,
    LibraryListeners.message strict Sample.warning w =
      (Ok tt, mkWorld (_methods w) (trace w ++ new)) /\
    invocations new = [(proxy, "message", [Msg Sample.warning])].
Proof.
  intros proxy w strict.
  destruct (only_log_messages_are_filtered Sample.env strict Sample.warning
              w _ _ eq_refl eq_refl)
    as ((_ & new & Hrun & Hinv) & _ & Hno & _).
  split; [apply Hno; reflexivity|].
  exists new. split; [exact Hrun|exact Hinv].
Defined.

(** ** Combined views *)

(** A named override is what the view reads, whatever the result object
    holds. *)
Lemma override_wins data result overrides attribute v :
  lookup attribute overrides = Some v ->
  ModelCombiner_getattr (mkModelCombiner data result overrides) attribute =
  Ok v.
Proof.
  intros H. unfold ModelCombiner_getattr. simpl. now rewrite H.
Qed.

(** C10.  For every [start_suite] event whose data object has [tests],
    [suites] and [test_count], the [start_suite] dispatcher is called with
    the combined view built with exactly these three named overrides, each
    taken from the data object, so the view reads the three attributes
    from the data object whatever the result object holds.  The views
    that [end_suite], [start_test], [end_test] and the body item entry
    points hand over are built with no override. *)
Theorem start_suite_overrides :
  forall (self : LibraryListeners) (data result : object) (w : World)
         (tests suites test_count : value),
    getattr data "tests" = Ok tests ->
    getattr data "suites" = Ok suites ->
    getattr data "test_count" = Ok test_count ->
    let view :=
      mkModelCombiner data result
        [("tests", tests); ("suites", suites);
         ("test_count", test_count)] in
    (forall method,
        lookup "start_suite" (_methods w) = Some method ->
        LibraryListeners.start_suite self data result w =
        LibraryListenerMethods.__call__ method [View view] None w) /\
    ModelCombiner_getattr view "tests" = getattr data "tests" /\
    ModelCombiner_getattr view "suites" = getattr data "suites" /\
    ModelCombiner_getattr view "test_count" = getattr data "test_count" /\
    (forall (data' result' : object) (method : LibraryListenerMethods),
        let plain := View (mkModelCombiner data' result' []) in
        (lookup "end_suite" (_methods w) = Some method ->
         LibraryListeners.end_suite self data' result' w =
         LibraryListenerMethods.__call__ method [plain] None w) /\
        (lookup "start_test" (_methods w) = Some method ->
         LibraryListeners.start_test self data' result' w =
         LibraryListenerMethods.__call__ method [plain] None w) /\
        (lookup "end_test" (_methods w) = Some method ->
         LibraryListeners.end_test self data' result' w =
         LibraryListenerMethods.__call__ method [plain] None w) /\
        (lookup "start_keyword" (_methods w) = Some method ->
         LibraryListeners.not_a_root data' w = (Ok true, w) ->
         LibraryListeners.start_body_item self data' result' w =
         LibraryListenerMethods.__call__ method [plain] None w) /\
        (lookup "end_keyword" (_methods w) = Some method ->
         LibraryListeners.not_a_root data' w = (Ok true, w) ->
         LibraryListeners.end_body_item self data' result' w =
         LibraryListenerMethods.__call__ method [plain] None w)).
Proof.
  intros self data result w tests suites test_count Ht Hs Hc view.
  split; [|split; [|split; [|split]]].
  - intros method Hm.
    unfold LibraryListeners.start_suite, bind, lift,
      LibraryListeners.methods_getitem.
    now rewrite Hm, Ht, Hs, Hc.
  - rewrite Ht. now apply override_wins.
  - rewrite Hs. now apply override_wins.
  - rewrite Hc. now apply override_wins.
  - intros data' result' method plain.
    repeat split; intros Hm; try (now apply dispatch_runs).
    + intros Hroot. unfold LibraryListeners.start_body_item, bind at 1.
      rewrite Hroot. now apply dispatch_runs.
    + intros Hroot. unfold LibraryListeners.end_body_item, bind at 1.
      rewrite Hroot. now apply dispatch_runs.
Qed.

Lemma start_suite_overrides_witness :
  let proxy := Sample.proxy_of Sample.listener_v2 "ListenerV2" 2 in
  let method :=
    mkLibraryListenerMethods "start_suite" [(1%nat, proxy)] [] in
  let w := mkWorld [("start_suite", method)] [] in
  let self := mkLibraryListeners (IsLogged.__init__ "INFO") in
  let view :=
    mkModelCombiner Sample.suite Sample.suite_result
      [("tests", PyRef 1); ("suites", PyRef 2); ("test_count", PyInt 5)] in
  LibraryListeners.start_suite self Sample.suite Sample.suite_result w =
    LibraryListenerMethods.__call__ method [View view] None w /\
  ModelCombiner_getattr view "test_count" = Ok (PyInt 5) /\
  ModelCombiner_getattr view "status" = Ok (PyStr "FAIL").
Proof.
  intros proxy method w self view.
  destruct (start_suite_overrides self Sample.suite Sample.suite_result w
              (PyRef 1) (PyRef 2) (PyInt 5) eq_refl eq_refl eq_refl)
    as (Hcall & _ & _ & Hcount & _).
  split; [apply Hcall; reflexivity|]. split; [exact Hcount|reflexivity].
Defined.

(** ** Administrative operations of the router *)

Lemma update_methods_total f items :
  LibraryListeners.update_methods (fun method => Ok (f method)) items =
  (Ok tt, update_all f items).
Proof.
  induction items as [|[key method] items IH]; simpl; auto.
  now rewrite IH.
Qed.

Lemma for_each_listener_method_total f w :
  LibraryListeners.for_each_listener_method (fun method => Ok (f method)) w =
  (Ok tt, mkWorld (update_all f (_methods w)) (trace w)).
Proof.
  unfold LibraryListeners.for_each_listener_method.
  now rewrite update_methods_total.
Qed.

Lemma lookup_update_all f items key :
  lookup key (update_all f items) = option_map f (lookup key items).
Proof.
  induction items as [|[k method] items IH]; simpl; auto.
  now destruct (String.eqb key k).
Qed.

Lemma update_all_compose f g items :
  update_all f (update_all g items) = update_all (fun m => f (g m)) items.
Proof.
  unfold update_all. rewrite map_map. reflexivity.
Qed.

(** Popping after a push and some registrations. *)
Lemma update_methods_discard f items :
  (forall m,
      LibraryListenerMethods.discard_suite_scope (f m) = Ok m) ->
  LibraryListeners.update_methods
    LibraryListenerMethods.discard_suite_scope (update_all f items) =
  (Ok tt, items).
Proof.
  intros H. induction items as [|[k m] items IH]; simpl; auto.
  now rewrite H, IH.
Qed.

Lemma register_runs env self listeners lib w bound :
  ListenerProxy.import_listeners env listeners
    LibraryListeners._method_names (Some "_") true w = (Ok bound, w) ->
  LibraryListeners.register env self listeners lib w =
  (Ok tt,
   mkWorld
     (update_all
        (fun method => LibraryListenerMethods.register method bound lib)
        (_methods w))
     (trace w)).
Proof.
  intros H. unfold LibraryListeners.register, bind. rewrite H.
  apply for_each_listener_method_total.
Qed.

(** A registration that succeeds resolved every reference and logged
    nothing. *)
Lemma register_ok env self listeners lib w w' :
  LibraryListeners.register env self listeners lib w = (Ok tt, w') ->
  exists bound,
    ListenerProxy.import_listeners env listeners
      LibraryListeners._method_names (Some "_") true w = (Ok bound, w) /\
    w' =
      mkWorld
        (update_all
           (fun method => LibraryListenerMethods.register method bound lib)
           (_methods w))
        (trace w).
Proof.
  intros Hreg.
  destruct (import_all_or_nothing env LibraryListeners._method_names
              (Some "_") listeners [] w)
    as [(bound & _ & Hrun) | (e & Hrun)].
  - exists bound. split; [exact Hrun|].
    rewrite (register_runs env self listeners lib w bound Hrun) in Hreg.
    now inversion Hreg.
  - rewrite (register_raises env self listeners lib w e Hrun) in Hreg.
    discriminate.
Qed.

Lemma dispatcher_eta (m : LibraryListenerMethods) :
  mkLibraryListenerMethods (_method_name m) (active m) (checkpoints m) = m.
Proof. now destruct m. Qed.

(** C8.  For every run of [new_suite_scope], a [register] that succeeds,
    and [discard_suite_scope] on a router: in between, every dispatcher
    holds the bindings it had followed by the new ones, and afterwards the
    discard has returned normally and the world is the one before
    [new_suite_scope].  So every dispatcher has exactly the active
    bindings and checkpoints it had before: the bindings registered
    before remain active, and the bindings registered in the scope are in
    no active set (unless they were there before) and are not reached by
    any later notification. *)
Theorem discarded_scope_forgets_registrations :
  forall (env : Env) (self : LibraryListeners) (listeners : list reference)
         (lib : library) (w w1 w2 : World),
    LibraryListeners.new_suite_scope self w = (Ok tt, w1) ->
    LibraryListeners.register env self listeners lib w1 = (Ok tt, w2) ->
    (exists bound,
        ListenerProxy.import_listeners env listeners
          LibraryListeners._method_names (Some "_") true w1 =
          (Ok bound, w1) /\
        forall key method,
          lookup key (_methods w) = Some method ->
          exists method2,
            lookup key (_methods w2) = Some method2 /\
            active method2 =
              active method ++ map (fun proxy => (lib, proxy)) bound) /\
    LibraryListeners.discard_suite_scope self w2 = (Ok tt, w) /\
    (forall w3,
        LibraryListeners.discard_suite_scope self w2 = (Ok tt, w3) ->
        forall key,
          lookup key (_methods w3) = lookup key (_methods w) /\
          forall method args target,
            lookup key (_methods w3) = Some method ->
            LibraryListenerMethods.__call__ method args target w3 =
            LibraryListenerMethods.__call__ method args target w).
Proof.
  intros env self listeners lib w w1 w2 Hnew Hreg.
  unfold LibraryListeners.new_suite_scope in Hnew.
  rewrite for_each_listener_method_total in Hnew.
  inversion Hnew as [Hw1]. clear Hnew. subst w1.
  destruct (register_ok env self listeners lib _ w2 Hreg)
    as (bound & Himp & Hw2).
  assert (LibraryListeners.discard_suite_scope self w2 = (Ok tt, w))
    as Hdiscard.
  { unfold LibraryListeners.discard_suite_scope,
      LibraryListeners.for_each_listener_method.
    subst w2. simpl. rewrite update_all_compose.
    rewrite update_methods_discard; [now rewrite world_eta|].
    intros m. simpl. unfold LibraryListenerMethods.discard_suite_scope.
    simpl. now rewrite dispatcher_eta. }
  split; [|split].
  - exists bound. split; [exact Himp|].
    intros key method Hl. subst w2. simpl.
    rewrite update_all_compose, lookup_update_all, Hl. simpl.
    eexists. split; reflexivity.
  - exact Hdiscard.
  - intros w3 H3. rewrite Hdiscard in H3. inversion H3. subst w3.
    intros key. split; reflexivity.
Qed.

Lemma discarded_scope_forgets_registrations_witness :
  let self := mkLibraryListeners (IsLogged.__init__ "INFO") in
  let old := Sample.proxy_of Sample.listener_v2 "ListenerV2" 2 in
  let w :=
    mkWorld
      [("message", mkLibraryListenerMethods "message" [(1%nat, old)] [])]
      [] in
  exists w1 w2 added,
    LibraryListeners.new_suite_scope self w = (Ok tt, w1) /\
    LibraryListeners.register Sample.env self [Text "listeners.V3"] 2%nat w1
      = (Ok tt, w2) /\
    lookup "message" (_methods w2) =
      Some (mkLibraryListenerMethods "message"
              [(1%nat, old); (2%nat, added)] [[(1%nat, old)]]) /\
    LibraryListeners.discard_suite_scope self w2 = (Ok tt, w).
Proof.
  intros self old w.
  do 3 eexists. split; [reflexivity|]. split; [reflexivity|].
  split; [reflexivity|].
  eapply (discarded_scope_forgets_registrations Sample.env self
            [Text "listeners.V3"] 2%nat w); reflexivity.
Defined.

Lemma unregister_runs self lib close w :
  LibraryListeners.unregister self lib close w =
  (Ok tt,
   mkWorld
     (update_all (fun method => LibraryListenerMethods.unregister method lib)
        (_methods w))
     (trace w ++
      if close then
        match lookup "close" (_methods w) with
        | Some method =>
            notifications (_method_name method) []
              (filter (LibraryListenerMethods.owned_by lib) (active method))
        | None => []
        end
      else [])).
Proof.
  unfold LibraryListeners.unregister, LibraryListeners.close_requested.
  unfold bind at 1 2.
  destruct close.
  - destruct (lookup "close" (_methods w)) as [method|] eqn:E.
    + unfold LibraryListenerMethods.__bool__.
      rewrite (dispatch_runs "close" method [] (Some lib) w E), call_runs.
      now rewrite for_each_listener_method_total.
    + unfold ret. rewrite for_each_listener_method_total.
      now rewrite app_nil_r.
  - unfold ret. rewrite for_each_listener_method_total.
    now rewrite app_nil_r.
Qed.

(** C9.  Every call [unregister(library, close)] on the router returns
    normally.  With [close] true, the [close] dispatcher is called for
    that library on the active sets as they are before anything is
    removed: the [close] hook of every binding the library owns there, if
    present, is entered once, in registration order.  With [close] false
    nothing is notified or logged.  In both cases each dispatcher
    afterwards keeps exactly its bindings owned by other libraries, so
    none retains a binding owned by that library. *)
Theorem unregister_closes_then_removes :
  forall (self : LibraryListeners) (lib : library) (close : bool)
         (w : World),
  exists w' new,
    LibraryListeners.unregister self lib close w = (Ok tt, w') /\
    trace w' = trace w ++ new /\
    (close = false -> new = []) /\
    (close = true ->
     forall method,
       lookup "close" (_methods w) = Some method ->
       invocations new =
         notified (_method_name method) []
           (filter (LibraryListenerMethods.owned_by lib) (active method))) /\
    (forall key method,
        lookup key (_methods w) = Some method ->
        exists method',
          lookup key (_methods w') = Some method' /\
          active method' =
            filter (fun entry =>
                      negb (LibraryListenerMethods.owned_by lib entry))
                   (active method)) /\
    (forall key method' entry,
        lookup key (_methods w') = Some method' ->
        In entry (active method') -> fst entry <> lib).
Proof.
  intros self lib close w.
  do 2 eexists. split; [apply unregister_runs|]. simpl.
  split; [reflexivity|]. split; [|split; [|split]].
  - now intros ->.
  - intros -> method Hm. rewrite Hm. apply invocations_notifications.
  - intros key method Hl. rewrite lookup_update_all, Hl. simpl.
    eexists. split; reflexivity.
  - intros key method' entry Hl Hin.
    rewrite lookup_update_all in Hl.
    destruct (lookup key (_methods w)) as [method|]; [|discriminate].
    simpl in Hl. inversion Hl. subst method'. simpl in Hin.
    apply filter_In in Hin. destruct Hin as [_ Hown].
    unfold LibraryListenerMethods.owned_by in Hown.
    apply negb_true_iff, Nat.eqb_neq in Hown. exact Hown.
Qed.

Lemma unregister_closes_then_removes_witness :
  let self := mkLibraryListeners (IsLogged.__init__ "INFO") in
  let a := Sample.proxy_of Sample.listener_v2 "ListenerV2" 2 in
  let b := Sample.proxy_of Sample.listener_failing "failing_module" 2 in
  let entries := [(1%nat, a); (2%nat, b); (1%nat, b)] in
  let w :=
    mkWorld
      [("message", mkLibraryListenerMethods "message" entries []);
       ("close", mkLibraryListenerMethods "close" entries [])] [] in
  exists w' new,
    LibraryListeners.unregister self 1%nat true w = (Ok tt, w') /\
    trace w' = trace w ++ new /\
    invocations new = [(a, "close", []); (b, "close", [])] /\
    _methods w' =
      [("message", mkLibraryListenerMethods "message" [(2%nat, b)] []);
       ("close", mkLibraryListenerMethods "close" [(2%nat, b)] [])].
Proof.
  intros self a b entries w.
  destruct (unregister_closes_then_removes self 1%nat true w)
    as (w' & new & Hrun & Htrace & _ & Hclose & _).
  exists w', new. split; [exact Hrun|]. split; [exact Htrace|].
  split; [exact (Hclose eq_refl _ eq_refl)|].
  assert (LibraryListeners.unregister self 1%nat true w =
          (Ok tt,
           mkWorld
             [("message",
               mkLibraryListenerMethods "message" [(2%nat, b)] []);
              ("close", mkLibraryListenerMethods "close" [(2%nat, b)] [])]
             (trace w ++
              [Invoked a "close" []; Invoked b "close" [];
               LoggedError [Txt "failing_module"; Txt "boom"]])))
    as Hres by reflexivity.
  rewrite Hres in Hrun. now inversion Hrun.
Defined.

(** ** Routers share the class dictionary *)

Lemma init_runs log_level w :
  LibraryListeners.__init__ log_level w =
  (Ok (mkLibraryListeners (IsLogged.__init__ log_level)),
   mkWorld
     (fold_left
        (fun d name => set_item name (LibraryListenerMethods.__init__ name) d)
        LibraryListeners._method_names (_methods w))
     (trace w)).
Proof.
  unfold LibraryListeners.__init__.
  assert (forall names w0,
             for_each names
               (fun name =>
                  LibraryListeners.methods_setitem name
                    (LibraryListenerMethods.__init__ name)) w0 =
             (Ok tt,
              mkWorld
                (fold_left
                   (fun d name =>
                      set_item name (LibraryListenerMethods.__init__ name) d)
                   names (_methods w0))
                (trace w0))) as Hloop.
  { induction names as [|n names IH]; intros w0; simpl.
    - unfold ret. now rewrite world_eta.
    - unfold bind, LibraryListeners.methods_setitem at 1.
      now rewrite IH. }
  unfold bind. now rewrite Hloop.
Qed.

(** After a router is constructed, every dispatcher is a new one. *)
Lemma init_resets log_level w self w' key :
  LibraryListeners.__init__ log_level w = (Ok self, w') ->
  In key LibraryListeners._method_names ->
  lookup key (_methods w') = Some (LibraryListenerMethods.__init__ key).
Proof.
  rewrite init_runs. intros H Hin.
  apply (f_equal snd) in H. cbn [snd] in H. subst w'. cbn [_methods].
  rewrite (lookup_fold_set_item LibraryListenerMethods.__init__).
  now rewrite existsb_eqb_in.
Qed.

(** C6.  For every two routers [r1] and [r2] constructed in that order,
    with a registration made through [r1] in between: the registration
    put its bindings into every dispatcher of the shared dictionary;
    constructing [r2] then replaces each dispatcher by a new one without
    bindings, so an event sent through [r1] afterwards reaches none of the
    bindings registered through [r1]; and what is registered through [r2]
    afterwards is what an event sent through [r1] notifies, exactly as one
    sent through [r2]. *)
Theorem routers_share_dispatchers :
  forall (env : Env) (level1 level2 : string) (listeners : list reference)
         (lib : library) (w0 w1 w2 w3 : World) (r1 r2 : LibraryListeners),
    LibraryListeners.__init__ level1 w0 = (Ok r1, w1) ->
    LibraryListeners.register env r1 listeners lib w1 = (Ok tt, w2) ->
    LibraryListeners.__init__ level2 w2 = (Ok r2, w3) ->
    (exists bound,
        ListenerProxy.import_listeners env listeners
          LibraryListeners._method_names (Some "_") true w1 =
          (Ok bound, w1) /\
        forall key,
          In key LibraryListeners._method_names ->
          lookup key (_methods w2) =
          Some (mkLibraryListenerMethods key
                  (map (fun proxy => (lib, proxy)) bound) [])) /\
    (forall key,
        In key LibraryListeners._method_names ->
        lookup key (_methods w3) =
        Some (LibraryListenerMethods.__init__ key)) /\
    (forall msg, LibraryListeners.message r1 msg w3 = (Ok tt, w3)) /\
    (forall listeners' lib' w4,
        LibraryListeners.register env r2 listeners' lib' w3 = (Ok tt, w4) ->
        exists bound',
          ListenerProxy.import_listeners env listeners'
            LibraryListeners._method_names (Some "_") true w3 =
            (Ok bound', w3) /\
          forall msg,
            LibraryListeners.message r1 msg w4 =
              LibraryListeners.message r2 msg w4 /\
            exists new,
              LibraryListeners.message r1 msg w4 =
                (Ok tt, mkWorld (_methods w4) (trace w4 ++ new)) /\
              invocations new =
                notified "message" [Msg msg]
                  (map (fun proxy => (lib', proxy)) bound')).
Proof.
  intros env level1 level2 listeners lib w0 w1 w2 w3 r1 r2 H1 Hreg H2.
  assert (In "message" LibraryListeners._method_names) as Hmsg
      by (simpl; tauto).
  split; [|split; [|split]].
  - destruct (register_ok env r1 listeners lib w1 w2 Hreg)
      as (bound & Himp & ->).
    exists bound. split; [exact Himp|].
    intros key Hin. simpl.
    rewrite lookup_update_all, (init_resets _ _ _ _ key H1 Hin).
    reflexivity.
  - intros key Hin. exact (init_resets _ _ _ _ key H2 Hin).
  - intros msg. unfold LibraryListeners.message.
    rewrite (dispatch_runs "message" _ _ _ w3
               (init_resets _ _ _ _ "message" H2 Hmsg)).
    rewrite call_runs. simpl. now rewrite app_nil_r, world_eta.
  - intros listeners' lib' w4 Hreg'.
    destruct (register_ok env r2 listeners' lib' w3 w4 Hreg')
      as (bound' & Himp & ->).
    exists bound'. split; [exact Himp|].
    intros msg. split; [reflexivity|].
    assert (lookup "message"
              (update_all
                 (fun method =>
                    LibraryListenerMethods.register method bound' lib')
                 (_methods w3)) =
            Some (mkLibraryListenerMethods "message"
                    (map (fun proxy => (lib', proxy)) bound') [])) as Hl.
    { rewrite lookup_update_all,
        (init_resets _ _ _ _ "message" H2 Hmsg). reflexivity. }
    eexists. unfold LibraryListeners.message.
    erewrite dispatch_runs by (cbn [_methods]; exact Hl).
    rewrite call_runs.
    split; [reflexivity|]. apply invocations_notifications.
Qed.

Lemma routers_share_dispatchers_witness :
  let r1 := mkLibraryListeners (IsLogged.__init__ "INFO") in
  let r2 := mkLibraryListeners (IsLogged.__init__ "DEBUG") in
  let w1 := snd (LibraryListeners.__init__ "INFO" Sample.empty_world) in
  let w2 :=
    snd (LibraryListeners.register Sample.env r1 [Text "listeners.V2"]
           1%nat w1) in
  let w3 := snd (LibraryListeners.__init__ "DEBUG" w2) in
  let w4 :=
    snd (LibraryListeners.register Sample.env r2
           [Live Sample.listener_failing] 2%nat w3) in
  lookup "message" (_methods w2) =
    Some (mkLibraryListenerMethods "message"
            [(1%nat, Sample.proxy_of Sample.listener_v2 "listeners.V2" 2)]
            []) /\
  LibraryListeners.message r1 Sample.warning w3 = (Ok tt, w3) /\
  exists new,
    LibraryListeners.message r1 Sample.warning w4 =
      (Ok tt, mkWorld (_methods w4) (trace w4 ++ new)) /\
    invocations new =
      [(Sample.proxy_of Sample.listener_failing "failing_module" 2,
        "message", [Msg Sample.warning])].
Proof.
  intros r1 r2 w1 w2 w3 w4.
  destruct (routers_share_dispatchers Sample.env "INFO" "DEBUG"
              [Text "listeners.V2"] 1%nat Sample.empty_world w1 w2 w3 r1 r2)
    as (_ & _ & Hquiet & Hshared); try (vm_compute; reflexivity).
  split; [vm_compute; reflexivity|]. split; [apply Hquiet|].
  destruct (Hshared [Live Sample.listener_failing] 2%nat w4)
    as (bound' & Himp & Hmsg); [vm_compute; reflexivity|].
  destruct (Hmsg Sample.warning) as (_ & new & Hrun & Hinv).
  assert (ListenerProxy.import_listeners Sample.env
            [Live Sample.listener_failing] LibraryListeners._method_names
            (Some "_") true w3 =
          (Ok [Sample.proxy_of Sample.listener_failing "failing_module" 2],
           w3)) as Hc by (vm_compute; reflexivity).
  rewrite Hc in Himp. injection Himp as <-.
  exists new. split; [exact Hrun|exact Hinv].
Defined.

(** * Further properties of the listener module *)

(** ** Versions and imports *)

(** X1.  [_get_version] returns a version exactly when the marker is
    present and [int] converts it to 2 or to 3, and then returns that
    integer: a marker given as text or as a float is accepted through its
    conversion. *)
Theorem get_version_accepts :
  forall (env : Env) (nm : string) (l : Listener) (z : Z),
    ListenerProxy._get_version env nm l = Ok z <->
    exists marker,
      ROBOT_LISTENER_API_VERSION l = Some marker /\
      int env marker = Ok z /\ (z = 2 \/ z = 3).
Proof.
  intros env nm l z. split.
  - intros H. pose proof (get_version_supported env nm l z H) as Hz.
    unfold ListenerProxy._get_version in H.
    destruct (ROBOT_LISTENER_API_VERSION l) as [marker|]; [|discriminate].
    exists marker. split; [reflexivity|]. split; [|exact Hz].
    destruct (int env marker) as [v|e]; [|destruct e; discriminate].
    destruct (py_in (PyInt v) [PyInt 2; PyInt 3]); [|discriminate].
    inversion H. reflexivity.
  - intros (marker & Hm & Hi & Hz).
    unfold ListenerProxy._get_version. rewrite Hm, Hi.
    destruct Hz as [-> | ->]; reflexivity.
Qed.



(** X3.  [import_listeners] catches [DataError] only: when the references
    before one resolve and constructing that one raises any other
    exception, the exception leaves [import_listeners] as it is, with or
    without [raise_on_error], nothing is logged and the references after
    it are not looked at. *)
Theorem import_listeners_passes_other_errors :
  forall (env : Env) (method_names : list string) (prefix : option string)
         (before after : list reference) (bad : reference)
         (bound : list ListenerProxy) (e : exn) (raise_on_error : bool)
         (w : World),
    Forall2 (resolves env method_names prefix) before bound ->
    ListenerProxy.__init__ env bad method_names prefix = Raise e ->
    (forall msg, e <> DataError msg) ->
    ListenerProxy.import_listeners env (before ++ bad :: after) method_names
      prefix raise_on_error w = (Raise e, w).
Proof.
  intros env method_names prefix before after bad bound e raise_on_error w
    Hall Hbad Hother.
  unfold ListenerProxy.import_listeners. generalize (@nil ListenerProxy).
  induction Hall as [|r p rs ps Hr _ IH]; intros imported; simpl.
  - rewrite Hbad. destruct e; try reflexivity.
    exfalso. now apply (Hother msg).
  - unfold resolves in Hr. rewrite Hr. apply IH.
Qed.

Lemma import_listeners_passes_other_errors_witness :
  ListenerProxy.import_listeners Sample.env
    [Text "listeners.V2"; Live MoreSamples.listener_inf;
     Live Sample.listener_unmarked]
    LibraryListeners._method_names (Some "_") false Sample.empty_world =
  (Raise OverflowError, Sample.empty_world).
Proof.
  eapply (import_listeners_passes_other_errors Sample.env
            LibraryListeners._method_names (Some "_")
            [Text "listeners.V2"] [Live Sample.listener_unmarked]
            (Live MoreSamples.listener_inf)).
  - constructor; [reflexivity|constructor].
  - reflexivity.
  - intros msg H. discriminate H.
Defined.

(** The bindings of the references that resolve, in order. *)
Lemma import_best_effort_from env method_names prefix listeners imported w :
  (forall r e,
      In r listeners ->
      ListenerProxy.__init__ env r method_names prefix = Raise e ->
      exists msg, e = DataError msg) ->
  ListenerProxy.import_listeners_from env imported listeners method_names
    prefix false w =
  (Ok (imported ++
       flat_map
         (fun r =>
            match ListenerProxy.__init__ env r method_names prefix with
            | Ok proxy => [proxy]
            | Raise _ => []
            end) listeners),
   mkWorld (_methods w)
     (trace w ++
      flat_map
        (fun r =>
           match ListenerProxy.__init__ env r method_names prefix with
           | Raise (DataError err) =>
               [LoggedError
                  ([Txt "Taking listener '";
                    Txt (ListenerProxy.reference_name r);
                    Txt "' into use failed: "] ++ err)]
           | _ => []
           end) listeners)).
Proof.
  revert imported w.
  induction listeners as [|r listeners IH]; intros imported w Hdata; simpl.
  - unfold ret. now rewrite !app_nil_r, world_eta.
  - destruct (ListenerProxy.__init__ env r method_names prefix)
      as [proxy|e] eqn:E.
    + rewrite IH by (intros; eapply Hdata; eauto; now right).
      simpl. now rewrite <- app_assoc.
    + destruct (Hdata r e (or_introl eq_refl) E) as (msg & ->).
      unfold bind, LOGGER_error, emit.
      rewrite IH by (intros; eapply Hdata; eauto; now right).
      simpl. now rewrite <- app_assoc.
Qed.

(** X4.  Without [raise_on_error], for every batch of references whose
    failures are all [DataError]s (any number of them), [import_listeners]
    returns the bindings of the references that resolve, in input order,
    and logs one error for each failing reference, in input order, naming
    it; so bindings and logged errors together are as many as the
    references. *)
Theorem import_listeners_best_effort :
  forall (env : Env) (method_names : list string) (prefix : option string)
         (listeners : list reference) (w : World),
    (forall r e,
        In r listeners ->
        ListenerProxy.__init__ env r method_names prefix = Raise e ->
        exists msg, e = DataError msg) ->
    exists bound new,
      ListenerProxy.import_listeners env listeners method_names prefix
        false w = (Ok bound, mkWorld (_methods w) (trace w ++ new)) /\
      bound =
        flat_map
          (fun r =>
             match ListenerProxy.__init__ env r method_names prefix with
             | Ok proxy => [proxy]
             | Raise _ => []
             end) listeners /\
      new =
        flat_map
          (fun r =>
             match ListenerProxy.__init__ env r method_names prefix with
             | Raise (DataError err) =>
                 [LoggedError
                    ([Txt "Taking listener '";
                      Txt (ListenerProxy.reference_name r);
                      Txt "' into use failed: "] ++ err)]
             | _ => []
             end) listeners /\
      invocations new = [] /\
      (List.length bound + List.length new = List.length listeners)%nat.
Proof.
  intros env method_names prefix listeners w Hdata.
  do 2 eexists. split.
  - unfold ListenerProxy.import_listeners.
    rewrite (import_best_effort_from env method_names prefix listeners [] w
               Hdata). reflexivity.
  - split; [reflexivity|]. split; [reflexivity|].
    clear w. cbn [app].
    induction listeners as [|r listeners IH]; [split; reflexivity|].
    destruct IH as (IH1 & IH2);
      [intros; eapply Hdata; eauto; now right|].
    cbn [flat_map]. rewrite invocations_app, !List.length_app, IH1.
    destruct (ListenerProxy.__init__ env r method_names prefix)
      as [proxy|e] eqn:E.
    + split; [reflexivity|]. cbn [List.length]. lia.
    + destruct (Hdata r e (or_introl eq_refl) E) as (msg & ->).
      split; [reflexivity|]. cbn [List.length]. lia.
Qed.

Lemma import_listeners_best_effort_witness :
  exists first new,
    ListenerProxy.import_listeners Sample.env
      [Live Sample.listener_v1; Text "listeners.V2";
       Text "listeners.Missing"]
      LibraryListeners._method_names (Some "_") false Sample.empty_world =
      (Ok [first], mkWorld [] new) /\
    name first = "listeners.V2" /\
    List.length new = 2%nat.
Proof.
  destruct (import_listeners_best_effort Sample.env
              LibraryListeners._method_names (Some "_")
              [Live Sample.listener_v1; Text "listeners.V2";
               Text "listeners.Missing"] Sample.empty_world)
    as (bound & new & Hrun & -> & -> & _).
  - intros r e [<-|[<-|[<-|[]]]] H; vm_compute in H;
      inversion H; eexists; reflexivity.
  - do 2 eexists. split; [exact Hrun|]. split; reflexivity.
Defined.

(** X5.  With [raise_on_error], [import_listeners] never logs: it either
    returns one binding for each reference, in input order, or raises and
    leaves the world as it was.  When it raises, the references before
    the first one that fails all resolve, and the exception is that
    reference's own unless it is a [DataError], which is raised again with
    the name of the reference put in front; what comes after that
    reference plays no part. *)
Theorem import_listeners_fail_fast :
  forall (env : Env) (method_names : list string) (prefix : option string)
         (listeners : list reference) (w : World),
    (exists bound,
        Forall2 (resolves env method_names prefix) listeners bound /\
        ListenerProxy.import_listeners env listeners method_names prefix
          true w = (Ok bound, w)) \/
    (exists before bad after bound e,
        listeners = before ++ bad :: after /\
        Forall2 (resolves env method_names prefix) before bound /\
        ListenerProxy.__init__ env bad method_names prefix = Raise e /\
        ListenerProxy.import_listeners env listeners method_names prefix
          true w =
        (Raise
           match e with
           | DataError err =>
               DataError
                 ([Txt "Taking listener '";
                   Txt (ListenerProxy.reference_name bad);
                   Txt "' into use failed: "] ++ err)
           | _ => e
           end, w)).
Proof.
  intros env method_names prefix listeners w.
  unfold ListenerProxy.import_listeners.
  assert (forall imported,
             (exists bound,
                 Forall2 (resolves env method_names prefix) listeners bound /\
                 ListenerProxy.import_listeners_from env imported listeners
                   method_names prefix true w = (Ok (imported ++ bound), w))
             \/
             (exists before bad after bound e,
                 listeners = before ++ bad :: after /\
                 Forall2 (resolves env method_names prefix) before bound /\
                 ListenerProxy.__init__ env bad method_names prefix =
                   Raise e /\
                 ListenerProxy.import_listeners_from env imported listeners
                   method_names prefix true w =
                 (Raise
                    match e with
                    | DataError err =>
                        DataError
                          ([Txt "Taking listener '";
                            Txt (ListenerProxy.reference_name bad);
                            Txt "' into use failed: "] ++ err)
                    | _ => e
                    end, w))) as Hgen.
  { induction listeners as [|r listeners IH]; intros imported.
    - left. exists []. split; [constructor|]. simpl. unfold ret.
      now rewrite app_nil_r.
    - destruct (ListenerProxy.__init__ env r method_names prefix)
        as [proxy|e] eqn:E.
      + destruct (IH (imported ++ [proxy]))
          as [(bound & Hall & Hrun)
             |(before & bad & after & bound & e & -> & Hall & Hbad & Hrun)].
        * left. exists (proxy :: bound). split; [now constructor|].
          simpl. rewrite E, Hrun. now rewrite <- app_assoc.
        * right. exists (r :: before), bad, after, (proxy :: bound), e.
          split; [reflexivity|]. split; [now constructor|].
          split; [exact Hbad|]. simpl. now rewrite E, Hrun.
      + right. exists [], r, listeners, [], e.
        split; [reflexivity|]. split; [constructor|]. split; [exact E|].
        simpl. rewrite E. now destruct e. }
  destruct (Hgen []) as [(bound & Hall & Hrun)|Hraise].
  - left. exists bound. split; [exact Hall|exact Hrun].
  - right. exact Hraise.
Qed.

(** X6.  [register] is all or nothing over the dispatchers: either every
    reference resolves, nothing is logged, and each dispatcher of the
    dictionary is handed the same complete list of bindings, one for each
    reference in input order; or the call raises and the world is left as
    it was. *)
Theorem register_is_all_or_nothing :
  forall (env : Env) (self : LibraryListeners) (listeners : list reference)
         (lib : library) (w : World),
    (exists bound w',
        Forall2 (resolves env LibraryListeners._method_names (Some "_"))
          listeners bound /\
        LibraryListeners.register env self listeners lib w = (Ok tt, w') /\
        trace w' = trace w /\
        keys w' = keys w /\
        forall key method,
          lookup key (_methods w) = Some method ->
          lookup key (_methods w') =
          Some (LibraryListenerMethods.register method bound lib)) \/
    (exists e,
        LibraryListeners.register env self listeners lib w = (Raise e, w)).
Proof.
  intros env self listeners lib w.
  destruct (import_all_or_nothing env LibraryListeners._method_names
              (Some "_") listeners [] w)
    as [(bound & Hall & Hrun) | (e & Hrun)].
  - left. do 2 eexists. split; [exact Hall|].
    split; [exact (register_runs env self listeners lib w bound Hrun)|].
    split; [reflexivity|]. split.
    + unfold keys, update_all. simpl. rewrite map_map. reflexivity.
    + intros key method Hl. simpl. now rewrite lookup_update_all, Hl.
  - right. exists e. now apply register_raises.
Qed.

(** ** The class dictionary *)

Lemma update_methods_keys body items :
  map fst (snd (LibraryListeners.update_methods body items)) =
  map fst items.
Proof.
  induction items as [|[key method] items IH]; simpl; auto.
  destruct (body method) as [method'|e]; simpl; auto.
  destruct (LibraryListeners.update_methods body items) as [r rest].
  simpl in *. now rewrite IH.
Qed.

Lemma for_each_listener_method_keys body w :
  keys (snd (LibraryListeners.for_each_listener_method body w)) = keys w /\
  trace (snd (LibraryListeners.for_each_listener_method body w)) = trace w.
Proof.
  unfold LibraryListeners.for_each_listener_method, keys.
  pose proof (update_methods_keys body (_methods w)) as H.
  destruct (LibraryListeners.update_methods body (_methods w)) as [r items].
  simpl in *. auto.
Qed.

Lemma register_keys env self listeners lib w :
  keys (snd (LibraryListeners.register env self listeners lib w)) = keys w.
Proof.
  destruct (import_all_or_nothing env LibraryListeners._method_names
              (Some "_") listeners [] w)
    as [(bound & _ & Hrun) | (e & Hrun)].
  - rewrite (register_runs env self listeners lib w bound Hrun).
    unfold keys, update_all. simpl. now rewrite map_map.
  - now rewrite (register_raises env self listeners lib w e Hrun).
Qed.

Lemma unregister_keys self lib close w :
  keys (snd (LibraryListeners.unregister self lib close w)) = keys w.
Proof.
  rewrite unregister_runs. unfold keys, update_all. simpl.
  now rewrite map_map.
Qed.

Lemma lookup_in_keys {A : Type} (d : list (string * A)) k :
  In k (map fst d) <-> exists a, lookup k d = Some a.
Proof.
  induction d as [|[k' a'] d IH]; simpl.
  - split; [intros []|intros (a & H); discriminate].
  - destruct (String.eqb k k') eqn:E.
    + apply String.eqb_eq in E. subst. split; eauto.
    + apply String.eqb_neq in E. rewrite <- IH. split.
      * intros [H|H]; [congruence|exact H].
      * now right.
Qed.

Lemma initialised_by_keys w w' :
  keys w' = keys w -> initialised w -> initialised w'.
Proof.
  unfold initialised, keys. intros Hk Hw key Hin.
  apply lookup_in_keys. rewrite Hk. apply lookup_in_keys. now apply Hw.
Qed.

(** No event entry point changes the dictionary, whether it returns or
    raises. *)
Ltac event_cases :=
  repeat match goal with
    | |- context [lookup ?k (_methods ?w)] =>
        destruct (lookup k (_methods w)); simpl
    | |- context [getattr ?d ?a] => destruct (getattr d a); simpl
    | |- context [if ?b then _ else _] => destruct b; simpl
    | |- context [LibraryListenerMethods.__call__ ?m ?a ?l ?w] =>
        rewrite (call_runs m a l w); simpl
    end.

Lemma events_keep_dictionary env self data result msg w :
  _methods (snd (LibraryListeners.start_suite self data result w)) =
    _methods w /\
  _methods (snd (LibraryListeners.end_suite self data result w)) =
    _methods w /\
  _methods (snd (LibraryListeners.start_test self data result w)) =
    _methods w /\
  _methods (snd (LibraryListeners.end_test self data result w)) =
    _methods w /\
  _methods (snd (LibraryListeners.start_body_item self data result w)) =
    _methods w /\
  _methods (snd (LibraryListeners.end_body_item self data result w)) =
    _methods w /\
  _methods (snd (LibraryListeners.log_message env self msg w)) =
    _methods w /\
  _methods (snd (LibraryListeners.message self msg w)) = _methods w.
Proof.
  unfold LibraryListeners.start_suite, LibraryListeners.end_suite,
    LibraryListeners.start_test, LibraryListeners.end_test,
    LibraryListeners.start_body_item, LibraryListeners.end_body_item,
    LibraryListeners.log_message, LibraryListeners.message,
    LibraryListeners.not_a_root, LibraryListeners.methods_getitem,
    bind, lift, ret.
  repeat split; event_cases; reflexivity.
Qed.

(** X7.  The keys of the class dictionary are fixed by construction:
    [register], [unregister], [new_suite_scope] and [discard_suite_scope]
    never add, remove or reorder a key, whether they return or raise
    (also when [discard_suite_scope] fails at some dispatcher), and no
    event entry point changes the dictionary at all, whether it returns or
    raises. *)
Theorem dictionary_keys_are_kept :
  forall (env : Env) (self : LibraryListeners) (w : World),
    (forall listeners lib,
        keys (snd (LibraryListeners.register env self listeners lib w)) =
        keys w) /\
    (forall lib close,
        keys (snd (LibraryListeners.unregister self lib close w)) =
        keys w) /\
    keys (snd (LibraryListeners.new_suite_scope self w)) = keys w /\
    keys (snd (LibraryListeners.discard_suite_scope self w)) = keys w /\
    (forall data result msg,
        _methods (snd (LibraryListeners.start_suite self data result w)) =
          _methods w /\
        _methods (snd (LibraryListeners.end_suite self data result w)) =
          _methods w /\
        _methods (snd (LibraryListeners.start_test self data result w)) =
          _methods w /\
        _methods (snd (LibraryListeners.end_test self data result w)) =
          _methods w /\
        _methods (snd (LibraryListeners.start_body_item self data result w))
          = _methods w /\
        _methods (snd (LibraryListeners.end_body_item self data result w)) =
          _methods w /\
        _methods (snd (LibraryListeners.log_message env self msg w)) =
          _methods w /\
        _methods (snd (LibraryListeners.message self msg w)) = _methods w).
Proof.
  intros env self w.
  split; [intros; apply register_keys|].
  split; [intros; apply unregister_keys|].
  split; [apply for_each_listener_method_keys|].
  split; [apply for_each_listener_method_keys|].
  intros data result msg. apply events_keep_dictionary.
Qed.

(** X8.  Constructing a router binds every dispatcher name in the class
    dictionary, whatever the dictionary held, and the names stay bound
    through every later administrative operation and every later
    construction of a router. *)
Theorem dispatchers_stay_bound :
  forall (env : Env) (self : LibraryListeners) (w : World),
    (forall log_level,
        initialised (snd (LibraryListeners.__init__ log_level w))) /\
    (initialised w ->
     (forall listeners lib,
         initialised
           (snd (LibraryListeners.register env self listeners lib w))) /\
     (forall lib close,
         initialised (snd (LibraryListeners.unregister self lib close w))) /\
     initialised (snd (LibraryListeners.new_suite_scope self w)) /\
     initialised (snd (LibraryListeners.discard_suite_scope self w))).
Proof.
  intros env self w. split.
  - intros log_level key Hin. rewrite init_runs.
    exists (LibraryListenerMethods.__init__ key).
    cbn [snd _methods].
    rewrite (lookup_fold_set_item LibraryListenerMethods.__init__).
    now rewrite existsb_eqb_in.
  - intros Hw. repeat split.
    + intros. eapply initialised_by_keys; [apply register_keys|exact Hw].
    + intros. eapply initialised_by_keys; [apply unregister_keys|exact Hw].
    + eapply initialised_by_keys;
        [apply for_each_listener_method_keys|exact Hw].
    + eapply initialised_by_keys;
        [apply for_each_listener_method_keys|exact Hw].
Qed.

Lemma getitem_bound key w :
  initialised w ->
  In key LibraryListeners._method_names ->
  exists method, LibraryListeners.methods_getitem key w = (Ok method, w).
Proof.
  intros Hw Hin. destruct (Hw key Hin) as (method & Hl).
  exists method. unfold LibraryListeners.methods_getitem. now rewrite Hl.
Qed.

Ltac bound_dispatcher Hw k :=
  let method := fresh "method" in
  let Hl := fresh "Hl" in
  destruct (Hw k) as (method & Hl); [simpl; tauto|];
  unfold bind, LibraryListeners.methods_getitem; rewrite Hl.

(** X9.  Once every dispatcher name is bound, no event entry point raises
    [KeyError]: [message], [log_message], [end_suite], [start_test] and
    [end_test] always return normally, and [start_suite] and the body item
    entry points either return normally or raise the [AttributeError] of
    an attribute they read from the data object, leaving the world as it
    was. *)
Theorem events_find_their_dispatchers :
  forall (env : Env) (self : LibraryListeners) (w : World),
    initialised w ->
    (forall msg, exists w',
        LibraryListeners.message self msg w = (Ok tt, w')) /\
    (forall msg, exists w',
        LibraryListeners.log_message env self msg w = (Ok tt, w')) /\
    (forall data result,
        (exists w',
            LibraryListeners.end_suite self data result w = (Ok tt, w')) /\
        (exists w',
            LibraryListeners.start_test self data result w = (Ok tt, w')) /\
        (exists w',
            LibraryListeners.end_test self data result w = (Ok tt, w')) /\
        ((exists w',
             LibraryListeners.start_suite self data result w = (Ok tt, w'))
         \/
         (exists a,
             In a ["tests"; "suites"; "test_count"] /\
             LibraryListeners.start_suite self data result w =
             (Raise (AttributeError a), w))) /\
        ((exists w',
             LibraryListeners.start_body_item self data result w =
             (Ok tt, w'))
         \/
         (exists a,
             In a ["type"; "IF_ELSE_ROOT"; "TRY_EXCEPT_ROOT"] /\
             LibraryListeners.start_body_item self data result w =
             (Raise (AttributeError a), w))) /\
        ((exists w',
             LibraryListeners.end_body_item self data result w =
             (Ok tt, w'))
         \/
         (exists a,
             In a ["type"; "IF_ELSE_ROOT"; "TRY_EXCEPT_ROOT"] /\
             LibraryListeners.end_body_item self data result w =
             (Raise (AttributeError a), w)))).
Proof.
  intros env self w Hw. split; [|split].
  - intros msg. unfold LibraryListeners.message.
    bound_dispatcher Hw "message". rewrite call_runs. eauto.
  - intros msg. unfold LibraryListeners.log_message.
    destruct (IsLogged.__call__ env (_is_logged self) (level msg));
      [|unfold ret; eauto].
    bound_dispatcher Hw "log_message". rewrite call_runs. eauto.
  - intros data result. split; [|split; [|split; [|split; [|split]]]].
    + unfold LibraryListeners.end_suite.
      bound_dispatcher Hw "end_suite". rewrite call_runs. eauto.
    + unfold LibraryListeners.start_test.
      bound_dispatcher Hw "start_test". rewrite call_runs. eauto.
    + unfold LibraryListeners.end_test.
      bound_dispatcher Hw "end_test". rewrite call_runs. eauto.
    + unfold LibraryListeners.start_suite.
      bound_dispatcher Hw "start_suite". unfold lift, getattr.
      destruct (lookup "tests" data);
        [|right; exists "tests"; simpl; auto].
      destruct (lookup "suites" data);
        [|right; exists "suites"; simpl; auto].
      destruct (lookup "test_count" data);
        [|right; exists "test_count"; simpl; auto].
      left. rewrite call_runs. eauto.
    + unfold LibraryListeners.start_body_item, LibraryListeners.not_a_root,
        bind, lift, ret, getattr.
      destruct (lookup "type" data);
        [|right; exists "type"; simpl; auto].
      destruct (lookup "IF_ELSE_ROOT" data);
        [|right; exists "IF_ELSE_ROOT"; simpl; auto].
      destruct (lookup "TRY_EXCEPT_ROOT" data);
        [|right; exists "TRY_EXCEPT_ROOT"; simpl; auto].
      left. destruct (negb _); [|eauto].
      destruct (Hw "start_keyword") as (method & Hl); [simpl; tauto|].
      unfold LibraryListeners.methods_getitem. rewrite Hl, call_runs. eauto.
    + unfold LibraryListeners.end_body_item, LibraryListeners.not_a_root,
        bind, lift, ret, getattr.
      destruct (lookup "type" data);
        [|right; exists "type"; simpl; auto].
      destruct (lookup "IF_ELSE_ROOT" data);
        [|right; exists "IF_ELSE_ROOT"; simpl; auto].
      destruct (lookup "TRY_EXCEPT_ROOT" data);
        [|right; exists "TRY_EXCEPT_ROOT"; simpl; auto].
      left. destruct (negb _); [|eauto].
      destruct (Hw "end_keyword") as (method & Hl); [simpl; tauto|].
      unfold LibraryListeners.methods_getitem. rewrite Hl, call_runs. eauto.
Qed.

Lemma sample_world_initialised :
  initialised (snd (LibraryListeners.__init__ "INFO" Sample.empty_world)).
Proof.
  intros key Hin. simpl in Hin.
  repeat (destruct Hin as [<-|Hin]; [eexists; reflexivity|]).
  contradiction.
Qed.

Lemma events_find_their_dispatchers_witness :
  let self := mkLibraryListeners (IsLogged.__init__ "INFO") in
  let w := snd (LibraryListeners.__init__ "INFO" Sample.empty_world) in
  (exists w', LibraryListeners.message self Sample.warning w = (Ok tt, w'))
  /\
  (exists w',
      LibraryListeners.end_suite self Sample.suite Sample.suite_result w =
      (Ok tt, w')).
Proof.
  intros self w.
  destruct (events_find_their_dispatchers Sample.env self w
              sample_world_initialised) as (Hm & _ & He).
  split; [apply Hm|]. apply (He Sample.suite Sample.suite_result).
Defined.

(** ** Events on incomplete data *)

(** X10.  [start_suite] reads [tests], [suites] and [test_count] from the
    data object before anything is dispatched: when the dispatcher is
    bound and one of them is missing, the call raises the
    [AttributeError] of the first missing one and no listener is
    notified, whatever bindings are active; only when the dispatcher name
    is not bound does [KeyError] come first. *)
Theorem start_suite_on_incomplete_data :
  forall (self : LibraryListeners) (data result : object) (w : World)
         (a : string),
    (a = "tests" \/
     (a = "suites" /\ lookup "tests" data <> None) \/
     (a = "test_count" /\ lookup "tests" data <> None /\
      lookup "suites" data <> None)) ->
    lookup a data = None ->
    (forall method,
        lookup "start_suite" (_methods w) = Some method ->
        LibraryListeners.start_suite self data result w =
        (Raise (AttributeError a), w)) /\
    (lookup "start_suite" (_methods w) = None ->
     LibraryListeners.start_suite self data result w =
     (Raise (KeyError "start_suite"), w)).
Proof.
  intros self data result w a Hfirst Hmissing. split.
  - intros method Hl.
    unfold LibraryListeners.start_suite, bind,
      LibraryListeners.methods_getitem, lift, getattr.
    rewrite Hl.
    destruct Hfirst as [-> | [(-> & Ht) | (-> & Ht & Hs)]].
    + now rewrite Hmissing.
    + destruct (lookup "tests" data); [|congruence]. now rewrite Hmissing.
    + destruct (lookup "tests" data); [|congruence].
      destruct (lookup "suites" data); [|congruence]. now rewrite Hmissing.
  - intros Hl.
    unfold LibraryListeners.start_suite, bind,
      LibraryListeners.methods_getitem.
    now rewrite Hl.
Qed.

Lemma start_suite_on_incomplete_data_witness :
  let self := mkLibraryListeners (IsLogged.__init__ "INFO") in
  let proxy := Sample.proxy_of Sample.listener_v2 "ListenerV2" 2 in
  let w :=
    mkWorld
      [("start_suite",
        mkLibraryListenerMethods "start_suite" [(1%nat, proxy)] [])] [] in
  LibraryListeners.start_suite self MoreSamples.broken_suite
    Sample.suite_result w = (Raise (AttributeError "suites"), w).
Proof.
  intros self proxy w.
  destruct (start_suite_on_incomplete_data self MoreSamples.broken_suite
              Sample.suite_result w "suites") as (H & _).
  - right. left. split; [reflexivity|]. discriminate.
  - reflexivity.
  - apply (H _ eq_refl).
Defined.

(** X11.  The body item entry points read [type], [IF_ELSE_ROOT] and
    [TRY_EXCEPT_ROOT] from the data object before they look for a
    dispatcher: when one of them is missing, both raise the
    [AttributeError] of the first missing one and leave the world as it
    was, whether or not the keyword dispatchers are bound. *)
Theorem body_item_on_incomplete_data :
  forall (self : LibraryListeners) (data result : object) (w : World)
         (a : string),
    (a = "type" \/
     (a = "IF_ELSE_ROOT" /\ lookup "type" data <> None) \/
     (a = "TRY_EXCEPT_ROOT" /\ lookup "type" data <> None /\
      lookup "IF_ELSE_ROOT" data <> None)) ->
    lookup a data = None ->
    LibraryListeners.start_body_item self data result w =
      (Raise (AttributeError a), w) /\
    LibraryListeners.end_body_item self data result w =
      (Raise (AttributeError a), w).
Proof.
  intros self data result w a Hfirst Hmissing.
  unfold LibraryListeners.start_body_item, LibraryListeners.end_body_item,
    LibraryListeners.not_a_root, bind, lift, getattr.
  destruct Hfirst as [-> | [(-> & Ht) | (-> & Ht & Hs)]].
  - now rewrite Hmissing.
  - destruct (lookup "type" data); [|congruence]. now rewrite Hmissing.
  - destruct (lookup "type" data); [|congruence].
    destruct (lookup "IF_ELSE_ROOT" data); [|congruence].
    now rewrite Hmissing.
Qed.

Lemma body_item_on_incomplete_data_witness :
  let self := mkLibraryListeners (IsLogged.__init__ "INFO") in
  LibraryListeners.start_body_item self MoreSamples.untyped_item []
    Sample.empty_world = (Raise (AttributeError "type"), Sample.empty_world).
Proof.
  intros self.
  apply (body_item_on_incomplete_data self MoreSamples.untyped_item []
           Sample.empty_world "type"); [now left|reflexivity].
Defined.

(** ** What a binding holds *)

(** X12.  The API version changes nothing but the five keyword and import
    hooks, and [name] and [version] are no hooks.  For every binding, the
    hook table has no entry under [name] or [version] (these attributes
    are the display name and the version, assigned after the hooks); each
    other attribute outside the five holds what
    [AbstractLoggerProxy.__init__] set for the wrapped listener, whatever
    the version; and in a binding of version 2 so do the five. *)
Theorem version_touches_five_hooks_only :
  forall (env : Env) (listener : reference) (method_names : list string)
         (prefix : option string) (proxy : ListenerProxy),
    ListenerProxy.__init__ env listener method_names prefix = Ok proxy ->
    lookup "name" (hooks proxy) = None /\
    lookup "version" (hooks proxy) = None /\
    forall hook_name,
      hook_name <> "name" ->
      hook_name <> "version" ->
      (~ In hook_name ["start_keyword"; "end_keyword"; "library_import";
                       "resource_import"; "variables_import"] \/
       version proxy = 2) ->
      lookup hook_name (hooks proxy) =
      lookup hook_name
        (AbstractLoggerProxy.__init__ ListenerProxy._no_method
           (logger proxy) method_names prefix).
Proof.
  intros env listener method_names prefix proxy Hinit.
  destruct (init_ok _ _ _ _ _ Hinit)
    as (l & nm & table & _ & -> & [[_ ->] | [H3 ->]]); simpl hooks;
    simpl logger; simpl version.
  - split; [|split].
    + rewrite lookup_del_item_other by discriminate.
      apply lookup_del_item_same.
    + apply lookup_del_item_same.
    + intros hook_name Hn Hv _. now rewrite !lookup_del_item_other.
  - split; [|split].
    + rewrite !lookup_set_item. simpl.
      rewrite lookup_del_item_other by discriminate.
      apply lookup_del_item_same.
    + rewrite !lookup_set_item. simpl. apply lookup_del_item_same.
    + intros hook_name Hn Hv [Hout | H2]; [|discriminate H2].
      rewrite !lookup_set_item.
      assert (forall k,
                 In k ["start_keyword"; "end_keyword"; "library_import";
                       "resource_import"; "variables_import"] ->
                 String.eqb hook_name k = false) as Hne.
      { intros k Hk. apply String.eqb_neq. intros ->. now apply Hout. }
      rewrite !Hne by (simpl; tauto).
      now rewrite !lookup_del_item_other.
Qed.

Lemma version_touches_five_hooks_only_witness :
  exists proxy,
    ListenerProxy.__init__ Sample.env (Text "listeners.V3")
      ["name"; "log_message"; "start_keyword"] (Some "_") = Ok proxy /\
    version proxy = 3 /\
    name proxy = "listeners.V3" /\
    lookup "name" (hooks proxy) = None /\
    lookup "log_message" (hooks proxy) = Some (Some Sample.quiet).
Proof.
  eexists. split; [reflexivity|]. split; [reflexivity|].
  split; [reflexivity|].
  destruct (version_touches_five_hooks_only Sample.env
              (Text "listeners.V3") ["name"; "log_message"; "start_keyword"]
              (Some "_") _ eq_refl) as (Hname & _ & H).
  split; [exact Hname|].
  rewrite H; [reflexivity|discriminate|discriminate|].
  left. simpl. intros [H'|[H'|[H'|[H'|[H'|[]]]]]]; discriminate H'.
Defined.

(** X13.  A binding built from a live listener wraps that listener and is
    displayed by its [__name__] when it has a non-empty one and by the
    name of its type otherwise.  A binding built from text wraps what the
    importer returns for the normalised base name and the arguments of
    the reference, and is displayed by the base name as it was written. *)
Theorem binding_display_name :
  forall (env : Env) (listener : reference) (method_names : list string)
         (prefix : option string) (proxy : ListenerProxy),
    ListenerProxy.__init__ env listener method_names prefix = Ok proxy ->
    match listener with
    | Live l =>
        logger proxy = l /\
        name proxy =
          match dunder_name l with
          | Some n => if String.eqb n "" then type_name l else n
          | None => type_name l
          end
    | Text s =>
        name proxy = fst (split_args_from_name_or_path env s) /\
        import_class_or_module env
          (normpath env (fst (split_args_from_name_or_path env s)))
          (snd (split_args_from_name_or_path env s)) = Ok (logger proxy)
    end.
Proof.
  intros env listener method_names prefix proxy Hinit.
  destruct (init_ok _ _ _ _ _ Hinit)
    as (l & nm & table & Himp & _ & Hcase).
  assert (logger proxy = l /\ name proxy = nm) as (Hl & Hn)
      by (destruct Hcase as [[_ ->] | [_ ->]]; split; reflexivity).
  rewrite Hl, Hn. clear Hcase Hl Hn Hinit.
  destruct listener as [s|l0]; simpl in Himp.
  - destruct (split_args_from_name_or_path env s) as [base args]. simpl.
    destruct (import_class_or_module env (normpath env base) args)
      as [l1|e]; [|discriminate].
    inversion Himp. subst. split; reflexivity.
  - inversion Himp. subst. split; reflexivity.
Qed.

Lemma binding_display_name_witness :
  exists proxy,
    ListenerProxy.__init__ Sample.env (Live MoreSamples.module_v3)
      LibraryListeners._method_names (Some "_") = Ok proxy /\
    logger proxy = MoreSamples.module_v3 /\
    name proxy = "my_listener".
Proof.
  eexists. split; [reflexivity|].
  exact (binding_display_name Sample.env (Live MoreSamples.module_v3)
           LibraryListeners._method_names (Some "_") _ eq_refl).
Defined.

(** * Properties of the documentation builder module *)

(** ** Choosing a builder *)

Ltac extension_cases os path :=
  unfold Builder.DocumentationBuilder, Builder.JavaDocBuilder;
  generalize (Builder._get_extension os path); intros ext;
  destruct (Builder.path_exists os path);
  destruct (Builder.JYTHON os);
  destruct (Builder.str_in ext Builder.RESOURCE_EXTENSIONS) eqn:Hres;
  destruct (Builder.str_in ext Builder.SPEC_EXTENSIONS) eqn:Hspec;
  destruct (String.eqb ext "json") eqn:Hjson;
  destruct (String.eqb ext "java") eqn:Hjava;
  try (apply String.eqb_eq in Hjava; subst ext;
       try discriminate Hres; try discriminate Hspec;
       try discriminate Hjson).

Lemma documentation_builder_raises os path e :
  Builder.DocumentationBuilder os path = Raise e ->
  e = DataError [Txt "Documenting Java test libraries requires Jython."].
Proof.
  extension_cases os path; intros H; try discriminate H;
    now inversion H.
Qed.

(** X14.  [DocumentationBuilder] looks at the extension only of a path
    that exists: for a path that does not exist it returns the library
    builder whatever the extension.  It raises in one case only, an
    existing path with extension [java] outside Jython, and then with the
    [DataError] that Java libraries require Jython; it returns the
    resource builder exactly for an existing path whose extension is one
    of [RESOURCE_EXTENSIONS], and the Java builder exactly for an
    existing path with extension [java] under Jython. *)
Theorem documentation_builder_choice :
  forall (os : Builder.Os) (path : string),
    (Builder.path_exists os path = false ->
     Builder.DocumentationBuilder os path = Ok Builder.LibraryDocBuilder) /\
    (forall e,
        Builder.DocumentationBuilder os path = Raise e <->
        (Builder.path_exists os path = true /\
         Builder._get_extension os path = "java" /\
         Builder.JYTHON os = false /\
         e = DataError
               [Txt "Documenting Java test libraries requires Jython."])) /\
    (Builder.DocumentationBuilder os path = Ok Builder.ResourceDocBuilder <->
     (Builder.path_exists os path = true /\
      Builder.str_in (Builder._get_extension os path)
        Builder.RESOURCE_EXTENSIONS = true)) /\
    (Builder.DocumentationBuilder os path =
       Ok Builder.JythonJavaDocBuilder <->
     (Builder.path_exists os path = true /\
      Builder._get_extension os path = "java" /\
      Builder.JYTHON os = true)).
Proof.
  intros os path. split; [|split; [|split]].
  - intros H. unfold Builder.DocumentationBuilder. now rewrite H.
  - intros e. extension_cases os path;
      (split;
       [intros H; try discriminate H; inversion H; auto
       |intros (H1 & H2 & H3 & H4); subst; try discriminate;
        try reflexivity;
        try (apply String.eqb_neq in Hjava; congruence)]).
  - extension_cases os path;
      (split;
       [intros H; try discriminate H; auto
       |intros (H1 & H2); try discriminate; reflexivity]).
  - extension_cases os path;
      (split;
       [intros H; try discriminate H; auto
       |intros (H1 & H2 & H3); subst; try discriminate; try reflexivity;
        try (apply String.eqb_neq in Hjava; congruence)]).
Qed.

(** ** Building *)

Lemma build_once os fuel b source :
  Builder.is_LibraryDocBuilder b = false ->
  Builder._build os (S fuel) b source =
  Some
    match Builder.build os b source with
    | Ok libdoc => Ok libdoc
    | Raise (DataError msg) => Raise (DataError msg)
    | Raise e =>
        Raise (DataError
                 [Txt "Building library '"; Txt source; Txt "' failed: ";
                  Txt (Builder.get_error_message os e)])
    end.
Proof.
  intros Hb. simpl. rewrite Hb. simpl.
  destruct (Builder.build os b source) as [libdoc|e]; auto.
  now destruct e.
Qed.

Lemma build_returns os fuel b source :
  exists r,
    Builder._build os (S (S fuel)) b source = Some r /\
    (forall e, r = Raise e -> exists msg, e = DataError msg) /\
    Builder._build os 2 b source = Some r.
Proof.
  cbn [Builder._build].
  destruct (Builder.build os b source) as [libdoc|e].
  - eexists. split; [reflexivity|]. split; [discriminate|reflexivity].
  - destruct e;
      try (eexists; split; [reflexivity|];
           split; [intros e H; inversion H; eauto|reflexivity]).
    destruct (Builder.is_LibraryDocBuilder b
              && negb (Builder.path_exists os source)
              && Builder.str_in (Builder._get_extension os source)
                   Builder.RESOURCE_EXTENSIONS).
    + destruct (Builder.build os Builder.ResourceDocBuilder source)
        as [libdoc|e].
      * eexists. split; [reflexivity|]. split; [discriminate|reflexivity].
      * destruct e; simpl;
          (eexists; split; [reflexivity|];
           split; [intros e H; inversion H; eauto|reflexivity]).
    + eexists. split; [reflexivity|].
      split; [intros e H; inversion H; eauto|reflexivity].
Qed.

(** X15.  [_build] ends after at most two calls, and whatever it raises is
    a [DataError], whatever the builders raise: with any bound of two or
    more on the depth of its calls it gives the same result, and that
    result is a library documentation or a [DataError]. *)
Theorem build_raises_data_errors_only :
  forall (os : Builder.Os) (fuel : nat) (b : Builder.builder)
         (source : string),
    (2 <= fuel)%nat ->
    exists r,
      Builder._build os fuel b source = Some r /\
      Builder._build os 2 b source = Some r /\
      forall e, r = Raise e -> exists msg, e = DataError msg.
Proof.
  intros os fuel b source Hfuel.
  destruct fuel as [|[|fuel]]; try lia.
  destruct (build_returns os fuel b source) as (r & H1 & H3 & H2).
  exists r. auto.
Qed.

Lemma build_raises_data_errors_only_witness :
  Builder._build SampleOs.os 5 Builder.SpecDocBuilder "spec.xml" =
  Some (Raise (DataError
                 [Txt "Building library '"; Txt "spec.xml";
                  Txt "' failed: "; Txt "KeyError: 'keywordspec'"])).
Proof.
  destruct (build_raises_data_errors_only SampleOs.os 5
              Builder.SpecDocBuilder "spec.xml") as (r & H & _);
    [lia|].
  rewrite H. vm_compute in H. inversion H. reflexivity.
Defined.

(** X16.  When the library builder fails with a [DataError], [_build]
    tries the resource builder, once, exactly when the source does not
    exist and has one of [RESOURCE_EXTENSIONS]: the result is then what
    the resource builder gives (its own [DataError] raised as it is, any
    other exception wrapped).  Otherwise the [DataError] of the library
    builder is raised again unchanged. *)
Theorem build_falls_back_to_resource :
  forall (os : Builder.Os) (fuel : nat) (source : string)
         (msg : message_text),
    Builder.build os Builder.LibraryDocBuilder source =
      Raise (DataError msg) ->
    (Builder.path_exists os source = false ->
     Builder.str_in (Builder._get_extension os source)
       Builder.RESOURCE_EXTENSIONS = true ->
     Builder._build os (S (S fuel)) Builder.LibraryDocBuilder source =
     Some
       match Builder.build os Builder.ResourceDocBuilder source with
       | Ok libdoc => Ok libdoc
       | Raise (DataError msg') => Raise (DataError msg')
       | Raise e =>
           Raise (DataError
                    [Txt "Building library '"; Txt source;
                     Txt "' failed: ";
                     Txt (Builder.get_error_message os e)])
       end) /\
    (Builder.path_exists os source = true \/
     Builder.str_in (Builder._get_extension os source)
       Builder.RESOURCE_EXTENSIONS = false ->
     Builder._build os (S fuel) Builder.LibraryDocBuilder source =
     Some (Raise (DataError msg))).
Proof.
  intros os fuel source msg Hlib. split.
  - intros Hex Hext. cbn [Builder._build]. rewrite Hlib, Hex, Hext.
    cbn [Builder.is_LibraryDocBuilder negb andb].
    destruct (Builder.build os Builder.ResourceDocBuilder source)
      as [libdoc|e]; auto.
    now destruct e.
  - intros Hno. cbn [Builder._build]. rewrite Hlib.
    destruct Hno as [-> | ->]; cbn [Builder.is_LibraryDocBuilder negb andb];
      auto.
    now rewrite andb_false_r.
Qed.

Lemma build_falls_back_to_resource_witness :
  Builder._build SampleOs.os 2 Builder.LibraryDocBuilder "missing.resource"
    = Some (Ok (Builder.mkLibraryDoc "missing.resource" "1.0" "ROBOT" []))
  /\
  Builder._build SampleOs.os 1 Builder.LibraryDocBuilder "missing.py"
    = Some (Raise (DataError [Txt "Importing library '"; Txt "missing.py";
                              Txt "' failed."])).
Proof.
  destruct (build_falls_back_to_resource SampleOs.os 0 "missing.resource"
              [Txt "Importing library '"; Txt "missing.resource";
               Txt "' failed."] eq_refl) as (Hyes & _).
  destruct (build_falls_back_to_resource SampleOs.os 0 "missing.py"
              [Txt "Importing library '"; Txt "missing.py";
               Txt "' failed."] eq_refl) as (_ & Hno).
  split.
  - exact (Hyes eq_refl eq_refl).
  - apply Hno. right. reflexivity.
Defined.

(** ** [LibraryDocumentation] *)

(** X17.  [LibraryDocumentation] returns within two calls of [_build] and
    raises nothing but [DataError]: with any bound of two or more on the
    depth of the calls it gives a result, the same as with two, and a
    failure is a [DataError]. *)
Theorem library_documentation_raises_data_errors_only :
  forall (os : Builder.Os) (fuel : nat) (path : string)
         (n v f : option string),
    (2 <= fuel)%nat ->
    exists r,
      Builder.LibraryDocumentation os fuel path n v f = Some r /\
      Builder.LibraryDocumentation os 2 path n v f = Some r /\
      forall e, r = Raise e -> exists msg, e = DataError msg.
Proof.
  intros os fuel path n v f Hfuel.
  unfold Builder.LibraryDocumentation.
  destruct (Builder.DocumentationBuilder os path) as [b|e] eqn:Hb.
  - destruct fuel as [|[|fuel]]; try lia.
    destruct (build_returns os fuel b path) as (r & H1 & H3 & H2).
    rewrite H1, H2. destruct r as [libdoc|e].
    + eexists. split; [reflexivity|]. split; [reflexivity|discriminate].
    + exists (Raise e). split; [reflexivity|]. split; [reflexivity|].
      intros e' H. inversion H. subst. now apply H3.
  - exists (Raise e). split; [reflexivity|]. split; [reflexivity|].
    intros e' H. inversion H. subst e'.
    rewrite (documentation_builder_raises os path e Hb). eauto.
Qed.

Lemma library_documentation_raises_data_errors_only_witness :
  Builder.LibraryDocumentation SampleOs.os 3 "Lib.java" None None None =
  Some (Raise (DataError
                 [Txt "Documenting Java test libraries requires Jython."])).
Proof.
  destruct (library_documentation_raises_data_errors_only SampleOs.os 3
              "Lib.java" None None None) as (r & H & _); [lia|].
  rewrite H. vm_compute in H. inversion H. reflexivity.
Defined.

(** X18.  When the source builds, [LibraryDocumentation] returns the
    documentation with [name], [version] and [doc_format] each replaced by
    its argument when that is given and not empty, and left as built
    otherwise (an empty text counts as not given); the three are
    independent and nothing else of the documentation changes. *)
Theorem library_documentation_overrides :
  forall (os : Builder.Os) (fuel : nat) (path : string)
         (n v f : option string) (b : Builder.builder)
         (libdoc : Builder.LibraryDoc),
    Builder.DocumentationBuilder os path = Ok b ->
    Builder._build os fuel b path = Some (Ok libdoc) ->
    exists doc,
      Builder.LibraryDocumentation os fuel path n v f = Some (Ok doc) /\
      Builder.name doc =
        match Builder.if_truthy n with
        | Some text => text
        | None => Builder.name libdoc
        end /\
      Builder.version doc =
        match Builder.if_truthy v with
        | Some text => text
        | None => Builder.version libdoc
        end /\
      Builder.doc_format doc =
        match Builder.if_truthy f with
        | Some text => text
        | None => Builder.doc_format libdoc
        end /\
      Builder.content doc = Builder.content libdoc /\
      (Builder.if_truthy n = None -> Builder.if_truthy v = None ->
       Builder.if_truthy f = None -> doc = libdoc).
Proof.
  intros os fuel path n v f b libdoc Hb Hbuild.
  unfold Builder.LibraryDocumentation. rewrite Hb, Hbuild.
  eexists. split; [reflexivity|].
  destruct (Builder.if_truthy n), (Builder.if_truthy v),
    (Builder.if_truthy f); simpl; repeat split; try discriminate.
Qed.

Lemma library_documentation_overrides_witness :
  Builder.LibraryDocumentation SampleOs.os 1 "suite.ROBOT"
    (Some "Renamed") (Some "") None =
  Some (Ok (Builder.mkLibraryDoc "Renamed" "1.0" "ROBOT" [])).
Proof.
  destruct (library_documentation_overrides SampleOs.os 1 "suite.ROBOT"
              (Some "Renamed") (Some "") None Builder.ResourceDocBuilder
              (Builder.mkLibraryDoc "suite.ROBOT" "1.0" "ROBOT" [])
              eq_refl eq_refl) as (doc & Hrun & _).
  rewrite Hrun. vm_compute in Hrun. inversion Hrun. reflexivity.
Defined.

(** X19.  For a name that is not an existing path and has one of
    [RESOURCE_EXTENSIONS], [LibraryDocumentation] first uses the library
    builder and, when that fails with a [DataError], the resource
    builder: it returns the documentation of the library builder when
    that builds, and otherwise what the resource builder gives.  For an
    existing path with such an extension the library builder is not used
    at all. *)
Theorem resource_names_not_on_disk :
  forall (os : Builder.Os) (fuel : nat) (path : string),
    Builder.str_in (Builder._get_extension os path)
      Builder.RESOURCE_EXTENSIONS = true ->
    (Builder.path_exists os path = false ->
     (forall libdoc,
         Builder.build os Builder.LibraryDocBuilder path = Ok libdoc ->
         Builder.LibraryDocumentation os (S fuel) path None None None =
         Some (Ok libdoc)) /\
     (forall msg libdoc,
         Builder.build os Builder.LibraryDocBuilder path =
           Raise (DataError msg) ->
         Builder.build os Builder.ResourceDocBuilder path = Ok libdoc ->
         Builder.LibraryDocumentation os (S (S fuel)) path None None None =
         Some (Ok libdoc)) /\
     (forall msg msg',
         Builder.build os Builder.LibraryDocBuilder path =
           Raise (DataError msg) ->
         Builder.build os Builder.ResourceDocBuilder path =
           Raise (DataError msg') ->
         Builder.LibraryDocumentation os (S (S fuel)) path None None None =
         Some (Raise (DataError msg')))) /\
    (Builder.path_exists os path = true ->
     forall libdoc,
       Builder.build os Builder.ResourceDocBuilder path = Ok libdoc ->
       Builder.LibraryDocumentation os (S fuel) path None None None =
       Some (Ok libdoc)).
Proof.
  intros os fuel path Hext. split.
  - intros Hex.
    assert (Builder.DocumentationBuilder os path =
            Ok Builder.LibraryDocBuilder) as Hb
        by (unfold Builder.DocumentationBuilder; now rewrite Hex).
    unfold Builder.LibraryDocumentation. rewrite Hb.
    split; [|split].
    + intros libdoc Hlib. cbn [Builder._build]. rewrite Hlib.
      now destruct libdoc.
    + intros msg libdoc Hlib Hres. cbn [Builder._build].
      rewrite Hlib, Hex, Hext. cbn [Builder.is_LibraryDocBuilder negb andb].
      rewrite Hres. now destruct libdoc.
    + intros msg msg' Hlib Hres. cbn [Builder._build].
      rewrite Hlib, Hex, Hext. cbn [Builder.is_LibraryDocBuilder negb andb].
      now rewrite Hres.
  - intros Hex libdoc Hres.
    assert (Builder.DocumentationBuilder os path =
            Ok Builder.ResourceDocBuilder) as Hb
        by (unfold Builder.DocumentationBuilder; now rewrite Hex, Hext).
    unfold Builder.LibraryDocumentation. rewrite Hb.
    cbn [Builder._build]. rewrite Hres. now destruct libdoc.
Qed.

Lemma resource_names_not_on_disk_witness :
  Builder.LibraryDocumentation SampleOs.os 2 "keywords.resource"
    None None None =
  Some (Ok (Builder.mkLibraryDoc "keywords.resource" "1.0" "ROBOT" [])).
Proof.
  destruct (resource_names_not_on_disk SampleOs.os 0 "keywords.resource"
              eq_refl) as ((_ & H & _) & _); [reflexivity|].
  apply (H [Txt "Importing library '"; Txt "keywords.resource";
            Txt "' failed."]); reflexivity.
Defined.
